(** * init_skill.py: the skill scaffolding script of the opencode dotfiles

    A shallow embedding of
    [.config/opencode/skill/skill-creator/scripts/init_skill.py] and of the
    Python built-ins it calls ([str.replace], [str.isalnum], [str.islower],
    [str.title], [pathlib], [os.makedirs], [open]/[write], [print],
    [sys.exit]), followed by the properties of [create_skill].

    Python strings are sequences of Unicode code points, so a [str] is a
    list of code points.  The character database of the interpreter is an
    interface ([UnicodeData]) that is pinned down on the ASCII range only;
    every theorem holds for any database that agrees with ASCII there. *)

From Stdlib Require Import NArith ZArith Ascii String List Bool Lia.
From stdpp Require Import gmap list.

Local Open Scope N_scope.

(** ** Strings *)

Abbreviation str := (list N).

(** A literal of the script, as code points. *)
Definition py (s : string) : str := map N_of_ascii (list_ascii_of_string s).
Arguments py s%_string.

Module Ascii7.
(** The classification of the code points below 128. *)
Definition is_lower (c : N) : bool := (97 <=? c) && (c <=? 122).
Definition is_upper (c : N) : bool := (65 <=? c) && (c <=? 90).
Definition is_digit (c : N) : bool := (48 <=? c) && (c <=? 57).
Definition is_alnum (c : N) : bool := is_lower c || is_upper c || is_digit c.
Definition is_cased (c : N) : bool := is_lower c || is_upper c.
Definition to_upper (c : N) : N := if is_lower c then c - 32 else c.
Definition to_lower (c : N) : N := if is_upper c then c + 32 else c.
End Ascii7.

(** The interpreter's character database (CPython's [unicodectype.c]).
    [lower_ucs4 before c after] is the lower-casing of [c] between [before]
    and [after]: it looks at the context for the final sigma. *)
Class UnicodeData := {
  Py_UNICODE_ISALNUM : N -> bool;
  Py_UNICODE_ISLOWER : N -> bool;
  Py_UNICODE_ISUPPER : N -> bool;
  Py_UNICODE_ISTITLE : N -> bool;
  PyUnicode_IsCased : N -> bool;
  PyUnicode_ToTitleFull : N -> str;
  lower_ucs4 : str -> N -> str -> str;
  isalnum_ascii : forall c, c < 128 -> Py_UNICODE_ISALNUM c = Ascii7.is_alnum c;
  islower_ascii : forall c, c < 128 -> Py_UNICODE_ISLOWER c = Ascii7.is_lower c;
  isupper_ascii : forall c, c < 128 -> Py_UNICODE_ISUPPER c = Ascii7.is_upper c;
  istitle_ascii : forall c, c < 128 -> Py_UNICODE_ISTITLE c = false;
  iscased_ascii : forall c, c < 128 -> PyUnicode_IsCased c = Ascii7.is_cased c;
  totitle_ascii : forall c, c < 128 -> PyUnicode_ToTitleFull c = [Ascii7.to_upper c];
  tolower_ascii : forall c before after,
    c < 128 -> lower_ucs4 before c after = [Ascii7.to_lower c]
}.

(** The database restricted to ASCII: every other code point is caseless,
    not alphanumeric and mapped to itself. *)
#[global, refine] Instance ascii_data : UnicodeData := {|
  Py_UNICODE_ISALNUM := Ascii7.is_alnum;
  Py_UNICODE_ISLOWER := Ascii7.is_lower;
  Py_UNICODE_ISUPPER := Ascii7.is_upper;
  Py_UNICODE_ISTITLE := fun _ => false;
  PyUnicode_IsCased := Ascii7.is_cased;
  PyUnicode_ToTitleFull := fun c => [Ascii7.to_upper c];
  lower_ucs4 := fun _ c _ => [Ascii7.to_lower c]
|}.
Proof. all: reflexivity. Defined.

Module PyStr.
Section Methods.
Context {U : UnicodeData}.

(** [s.replace(old, new)] for a one-character [old]. *)
Definition replace (old : N) (new : str) (s : str) : str :=
  flat_map (fun c => if c =? old then new else [c]) s.

(** [s.isalnum()]: every character is alphanumeric and there is one. *)
Definition isalnum (s : str) : bool :=
  match s with
  | [] => false
  | _ => forallb Py_UNICODE_ISALNUM s
  end.

(** [s.islower()]: the loop of [unicode_islower_impl].  (CPython answers
    a one-character string with [Py_UNICODE_ISLOWER] directly; no code
    point is both lowercase and uppercase or titlecase, so the loop gives
    the same answer.) *)
Fixpoint islower_loop (cased : bool) (s : str) : bool :=
  match s with
  | [] => cased
  | ch :: rest =>
      if Py_UNICODE_ISUPPER ch || Py_UNICODE_ISTITLE ch then false
      else islower_loop (cased || Py_UNICODE_ISLOWER ch) rest
  end.

Definition islower (s : str) : bool := islower_loop false s.

(** [s.title()]: the loop of [do_title]; [seen] is the reversed prefix
    already read. *)
Fixpoint title_loop (previous_is_cased : bool) (seen : str) (s : str) : str :=
  match s with
  | [] => []
  | c :: rest =>
      (if previous_is_cased then lower_ucs4 (rev seen) c rest
       else PyUnicode_ToTitleFull c)
      ++ title_loop (PyUnicode_IsCased c) (c :: seen) rest
  end.

Definition title (s : str) : str := title_loop false [] s.

(** [sep.join(parts)] *)
Fixpoint join (sep : str) (parts : list str) : str :=
  match parts with
  | [] => []
  | [p] => p
  | p :: ps => p ++ sep ++ join sep ps
  end.
End Methods.
End PyStr.

Definition hyphen : N := 45.
Definition space : N := 32.
Definition newline : N := 10.

(** ** Paths *)

(** A [pathlib] path: whether it starts at the root, and its components. *)
Record pypath := { anchored : bool; parts : list str }.

(** [Path(seg)] for a relative one-component [seg]. *)
Definition Path (seg : str) : pypath := {| anchored := false; parts := [seg] |}.

(** [p / seg] for a [seg] that is one component: not empty, without a slash,
    and not a dot.  The script applies it to literals and to the validated
    name ([valid_name_component] below). *)
Definition truediv (p : pypath) (seg : str) : pypath :=
  {| anchored := anchored p; parts := parts p ++ [seg] |}.

Declare Scope path_scope.
Delimit Scope path_scope with path.
Infix "/" := truediv : path_scope.

Definition slash : N := 47.

(** [str(p)], as the f-strings and [os.fspath] see it. *)
Definition fspath (p : pypath) : str :=
  if anchored p then slash :: PyStr.join [slash] (parts p)
  else match parts p with
       | [] => py "."
       | _ => PyStr.join [slash] (parts p)
       end.

(** ** The file system and the process environment *)

(** An entry is a directory, a file of any other type with its content,
    or a symbolic link that leads nowhere: its target is missing, and so
    is the directory of its target.  A symbolic link to an entry is not
    told from that entry. *)
Inductive node := Dir | File (content : str) | Link.

Inductive oserror :=
  | FileExistsError | FileNotFoundError | NotADirectoryError
  | IsADirectoryError | PermissionError | OtherOSError.

(** The exceptions of class [Exception] that the system calls and the
    streams raise; an [OSError] may name a file. *)
Inductive exception :=
  | OSError (kind : oserror) (filename : option str)
  | UnicodeEncodeError.

(** Why [os.stat] fails on a path for a reason other than the absence of
    the entry: no search permission on a directory of the path, a name
    that is too long, a device that does not answer. *)
Inductive stat_failure := EACCES | ENAMETOOLONG | EIO.

(** The exception class of the failure. *)
Definition oserror_of (k : stat_failure) : oserror :=
  match k with
  | EACCES => PermissionError
  | ENAMETOOLONG | EIO => OtherOSError
  end.

(** What the process inherits: the home directory, the working directory
    (both as components below the root), and how the system answers.
    - [denied q]: the system refuses, for lack of permission, to create
      the entry [q] or to open it for writing ([PermissionError]).
    - [failing q]: the system fails to create the entry [q] or to open it
      for writing for another reason: no space left, a read-only file
      system, a name that is too long (a plain [OSError]).
    - [stat_error q]: why [os.stat] on [q] fails, when it fails for a
      reason other than the absence of [q].
    - [write_error q data]: the error of writing [data] to the file [q]
      once it is open (no space left, a character that the encoding of
      the file does not have), with what reached the file before.
    - [stdout_error l]: the error of printing the line [l] (a character
      that the encoding of standard output does not have, a stream that
      fails).
    - [strerror e]: the text of [str(e)]. *)
Record environ := {
  home : list str;
  cwd : list str;
  denied : list str -> bool;
  failing : list str -> bool;
  stat_error : list str -> option stat_failure;
  write_error : list str -> str -> option (exception * str);
  stdout_error : str -> option exception;
  strerror : exception -> str
}.

(** A file system maps the components of an absolute path to a node; the
    root is always a directory. *)
Abbreviation filesystem := (gmap (list str) node).

Definition lookup_path (fs : filesystem) (p : list str) : option node :=
  match p with
  | [] => Some Dir
  | _ => fs !! p
  end.

(** Where a path starts: at the root, or at the working directory. *)
Definition anchor (E : environ) (root : bool) : list str :=
  if root then [] else cwd E.

(** The absolute location a path denotes for the system calls. *)
Definition resolve (E : environ) (p : pypath) : list str :=
  anchor E (anchored p) ++ parts p.

Definition Path_home (E : environ) : pypath :=
  {| anchored := true; parts := home E |}.

(** ** The interpreter: state, exceptions, output *)

Record state := { files : filesystem; stdout : list str }.

(** What can be raised: [SystemExit] is not an [Exception]. *)
Inductive exn :=
  | SystemExit (code : Z)
  | Exception (e : exception).

Inductive result (A : Type) := Val (a : A) | Raise (e : exn).
Arguments Val {A} a.
Arguments Raise {A} e.

Definition io (A : Type) : Type := state -> result A * state.

#[global] Instance io_ret : MRet io := fun A a s => (Val a, s).
#[global] Instance io_bind : MBind io := fun A B f m s =>
  match m s with
  | (Val a, s') => f a s'
  | (Raise e, s') => (Raise e, s')
  end.

Definition raise {A} (e : exn) : io A := fun s => (Raise e, s).

(** [sys.exit(code)] *)
Definition sys_exit {A} (code : Z) : io A := raise (SystemExit code).

(** [print(line)]: the line is on standard output, or the stream raises
    and nothing is printed. *)
Definition print (E : environ) (line : str) : io unit := fun s =>
  match stdout_error E line with
  | Some e => (Raise (Exception e), s)
  | None => (Val tt, {| files := files s; stdout := stdout s ++ [line] |})
  end.

(** [try: body / except Exception as e: handler(e)] *)
Definition try_except {A} (body : io A) (handler : exception -> io A) : io A :=
  fun s =>
    match body s with
    | (Raise (Exception e), s') => handler e s'
    | r => r
    end.

Module Os.
Section Calls.
Variable E : environ.

(** [os.stat(q)]: the entry, or the error.  Links are followed, so a
    link that leads nowhere is reported like a missing entry. *)
Definition stat (fs : filesystem) (q : list str) : oserror + node :=
  match stat_error E q with
  | Some k => inl (oserror_of k)
  | None =>
      match lookup_path fs q with
      | Some Link | None => inl FileNotFoundError
      | Some n => inr n
      end
  end.

(** [os.path.exists(q)]: false when [os.stat] fails, whatever the error. *)
Definition path_exists (fs : filesystem) (q : list str) : bool :=
  match stat fs q with
  | inr _ => true
  | inl _ => false
  end.

(** [os.path.isdir(q)]: false when [os.stat] fails. *)
Definition isdir (fs : filesystem) (q : list str) : bool :=
  match stat fs q with
  | inr Dir => true
  | _ => false
  end.

(** Creating the entry [q] needs its parent to be a directory and the
    system not to refuse. *)
Definition create_entry (p : pypath) (n : node) : io unit := fun s =>
  let q := resolve E p in
  match lookup_path (files s) (removelast q) with
  | None | Some Link =>
      (Raise (Exception (OSError FileNotFoundError (Some (fspath p)))), s)
  | Some (File _) => (Raise (Exception (OSError NotADirectoryError (Some (fspath p)))), s)
  | Some Dir =>
      if denied E q
      then (Raise (Exception (OSError PermissionError (Some (fspath p)))), s)
      else if failing E q
      then (Raise (Exception (OSError OtherOSError (Some (fspath p)))), s)
      else (Val tt, {| files := <[q := n]> (files s); stdout := stdout s |})
  end.

(** [os.mkdir(p)] *)
Definition mkdir (p : pypath) : io unit := fun s =>
  match lookup_path (files s) (resolve E p) with
  | Some _ => (Raise (Exception (OSError FileExistsError (Some (fspath p)))), s)
  | None => create_entry p Dir s
  end.

(** The last step of [os.makedirs(p, exist_ok=True)]:
    [try: mkdir(p) / except OSError: if not path.isdir(p): raise]. *)
Definition mkdir_exist_ok (p : pypath) : io unit := fun s =>
  match mkdir p s with
  | (Raise (Exception (OSError k f)), s') =>
      if isdir (files s') (resolve E p) then (Val tt, s')
      else (Raise (Exception (OSError k f)), s')
  | r => r
  end.

(** [os.makedirs(p, exist_ok=True)], by recursion on the components of
    [p] from the last one: the head is created first when
    [os.path.exists] does not find it, a [FileExistsError] of that
    recursive call being ignored. *)
Fixpoint makedirs_rev (root : bool) (rev_parts : list str) : io unit :=
  let name := {| anchored := root; parts := rev rev_parts |} in
  match rev_parts with
  | [] => mkdir_exist_ok name
  | _ :: rev_head =>
      let head := {| anchored := root; parts := rev rev_head |} in
      match rev_head with
      | [] => mret tt  (* the head is empty or the root: nothing to create *)
      | _ =>
          fun s =>
            if path_exists (files s) (resolve E head) then (Val tt, s)
            else
              match makedirs_rev root rev_head s with
              | (Raise (Exception (OSError FileExistsError _)), s') => (Val tt, s')
              | r => r
              end
      end;;
      mkdir_exist_ok name
  end.

Definition makedirs (p : pypath) : io unit :=
  makedirs_rev (anchored p) (rev (parts p)).

(** [with open(p, "w") as f: f.write(content)]: [open] creates the file,
    or empties it, before anything is written; when the write then fails,
    the file stays, with what reached it.  Through a link that leads
    nowhere no file can be created. *)
Definition write_text (p : pypath) (content : str) : io unit := fun s =>
  let q := resolve E p in
  match lookup_path (files s) q with
  | Some Dir => (Raise (Exception (OSError IsADirectoryError (Some (fspath p)))), s)
  | Some Link => (Raise (Exception (OSError FileNotFoundError (Some (fspath p)))), s)
  | _ =>
      match create_entry p (File []) s with
      | (Val _, _) =>
          match write_error E q content with
          | Some (e, written) =>
              (Raise (Exception e),
               {| files := <[q := File written]> (files s); stdout := stdout s |})
          | None =>
              (Val tt, {| files := <[q := File content]> (files s); stdout := stdout s |})
          end
      | r => r
      end
  end.
End Calls.
End Os.

(** [p.exists()] of [pathlib]: the errors of [os.stat] that say the entry
    is not there are answered with [False], the others are raised. *)
Definition ignore_error (k : oserror) : bool :=
  match k with
  | FileNotFoundError | NotADirectoryError => true
  | _ => false
  end.

Definition Path_exists (E : environ) (p : pypath) : io bool := fun s =>
  match Os.stat E (files s) (resolve E p) with
  | inr _ => (Val true, s)
  | inl k =>
      if ignore_error k then (Val false, s)
      else (Raise (Exception (OSError k (Some (fspath p)))), s)
  end.

(** ** The script *)

Section Script.
Context {U : UnicodeData}.
Variable E : environ.

Local Open Scope path_scope.

(** A line of a triple-quoted literal, with its line break. *)
Definition line (s : str) : str := s ++ [newline].

(** The f-string bound to [skill_md_content]. *)
Definition skill_md_content (name : str) : str :=
  line (py "---")
  ++ line (py "name: " ++ name)
  ++ line (py "description: [TODO: Add a concise description of what this skill does and when to use it]")
  ++ line (py "---")
  ++ line []
  ++ line (py "# " ++ PyStr.title (PyStr.replace hyphen [space] name))
  ++ line []
  ++ line (py "## Overview")
  ++ line (py "[TODO: Describe the skill's purpose]")
  ++ line []
  ++ line (py "## Usage")
  ++ line (py "[TODO: Describe how to use the skill]")
  ++ line []
  ++ line (py "## Resources")
  ++ line (py "* Scripts are in `scripts/`")
  ++ line (py "* References are in `references/`")
  ++ line (py "* Assets are in `assets/`").

Definition base_path (is_global : bool) : pypath :=
  if is_global
  then Path_home E / py ".config" / py "opencode" / py "skill"
  else Path (py ".opencode") / py "skill".

Definition skill_path (name : str) (is_global : bool) : pypath :=
  base_path is_global / name.

Definition create_skill (name : str) (is_global : bool) : io unit :=
  (* validate name *)
  (if negb (PyStr.isalnum (PyStr.replace hyphen [] name)) || negb (PyStr.islower name)
   then
     print E (py "Error: Name '" ++ name ++ py "' must be lowercase alphanumeric with hyphens.");;
     sys_exit 1
   else mret tt);;
  (* Determine base path *)
  let skill_path := skill_path name is_global in
  b ← Path_exists E skill_path;
  (if b : bool
   then
     print E (py "Error: Skill directory '" ++ fspath skill_path ++ py "' already exists.");;
     sys_exit 1
   else mret tt);;
  print E (py "Creating skill '" ++ name ++ py "' at " ++ fspath skill_path ++ py "...");;
  (* Create directories *)
  try_except
    (Os.makedirs E (skill_path / py "scripts");;
     Os.makedirs E (skill_path / py "references");;
     Os.makedirs E (skill_path / py "assets"))
    (fun e =>
       print E (py "Error creating directories: " ++ strerror E e);;
       sys_exit 1);;
  (* Create SKILL.md template *)
  Os.write_text E (skill_path / py "SKILL.md") (skill_md_content name);;
  print E (py "Skill '" ++ name ++ py "' created successfully!");;
  print E (py "Next steps:");;
  print E (py "1. Edit " ++ fspath skill_path ++ py "/SKILL.md");;
  print E (py "2. Add scripts or references as needed.").

(** What the operating system sees of one run of the script: the exit
    status, the lines on standard output, the exception whose traceback
    the interpreter wrote to standard error (if one escaped), and the
    file system left behind. *)
Record process := {
  exit_status : Z;
  output : list str;
  traceback : option exception;
  disk : filesystem
}.

(** [main()] once [argparse] has produced [args.name] and
    [args.is_global], run as [__main__] on the file system [fs]: a normal
    return exits with 0, [sys.exit(n)] with [n], and an exception that
    nothing catches with 1 after its traceback went to standard error. *)
Definition main (name : str) (is_global : bool) (fs : filesystem) : process :=
  match create_skill name is_global {| files := fs; stdout := [] |} with
  | (Val _, s) =>
      {| exit_status := 0; output := stdout s; traceback := None; disk := files s |}
  | (Raise (SystemExit n), s) =>
      {| exit_status := n; output := stdout s; traceback := None; disk := files s |}
  | (Raise (Exception e), s) =>
      {| exit_status := 1; output := stdout s; traceback := Some e; disk := files s |}
  end.

(** The name passes the validation step. *)
Definition valid_name (name : str) : bool :=
  PyStr.isalnum (PyStr.replace hyphen [] name) && PyStr.islower name.
End Script.

(** ** What the specification calls things *)

Module Spec.
Section Words.
Context {U : UnicodeData}.

(** The diagnostics that identify the error kinds of the specification. *)
Definition invalid_name_line (name : str) : str :=
  py "Error: Name '" ++ name ++ py "' must be lowercase alphanumeric with hyphens.".

Definition already_exists_line (p : pypath) : str :=
  py "Error: Skill directory '" ++ fspath p ++ py "' already exists.".

Definition creating_line (name : str) (p : pypath) : str :=
  py "Creating skill '" ++ name ++ py "' at " ++ fspath p ++ py "...".

(** The operation fails with [InvalidName]: one diagnostic line on
    standard output, exit status 1. *)
Definition InvalidName (name : str) (p : process) : Prop :=
  exit_status p = 1%Z /\ output p = [invalid_name_line name] /\ traceback p = None.

(** The operation fails with [AlreadyExists]. *)
Definition AlreadyExists (target : pypath) (p : process) : Prop :=
  exit_status p = 1%Z /\ output p = [already_exists_line target] /\ traceback p = None.

(** The operation succeeds. *)
Definition Success (p : process) : Prop := exit_status p = 0%Z.

(** Section 6 of the specification, the format of [SKILL.md]: its lines,
    for a name and a title. *)
Definition SKILL_md (name title : str) : list str :=
  [ py "---";
    py "name: " ++ name;
    py "description: [TODO: Add a concise description of what this skill does and when to use it]";
    py "---";
    [];
    py "# " ++ title;
    [];
    py "## Overview";
    py "[TODO: Describe the skill's purpose]";
    [];
    py "## Usage";
    py "[TODO: Describe how to use the skill]";
    [];
    py "## Resources";
    py "* Scripts are in `scripts/`";
    py "* References are in `references/`";
    py "* Assets are in `assets/`" ].

(** Section 6 of the specification, the layout produced at the absolute
    location [sp]: four directories and one file. *)
Definition layout (sp : list str) (content : str) : list (list str * node) :=
  [ (sp, Dir);
    (sp ++ [py "scripts"], Dir);
    (sp ++ [py "references"], Dir);
    (sp ++ [py "assets"], Dir);
    (sp ++ [py "SKILL.md"], File content) ].

(** A text file is its lines, each ended by a line break. *)
Definition text (lines : list str) : str := concat (map line lines).

(** The title as the specification words it: the name is cut at its
    hyphens, the first letter of each word is uppercased and the rest of
    the word is kept, and the words are put together with spaces. *)
Fixpoint words_from (cur : str) (s : str) : list str :=
  match s with
  | [] => [rev cur]
  | c :: rest =>
      if c =? hyphen then rev cur :: words_from [] rest
      else words_from (c :: cur) rest
  end.

(** The first letter of the word uppercased, the rest unchanged. *)
Fixpoint capitalize (word : str) : str :=
  match word with
  | [] => []
  | c :: rest =>
      if PyUnicode_IsCased c then PyUnicode_ToTitleFull c ++ rest
      else c :: capitalize rest
  end.

Definition title_of_words (name : str) : str :=
  PyStr.join [space] (map capitalize (words_from [] name)).
End Words.
End Spec.

(** ** The vocabulary of the statements *)

Section Vocabulary.
Context {U : UnicodeData}.
Variable E : environ.

(** The characters the error message asks for. *)
Definition name_char (c : N) : bool :=
  Ascii7.is_lower c || Ascii7.is_digit c || (c =? hyphen).


(** The file system [fs'] is [fs] with directories added at places [P],
    and nothing else touched. *)
Definition adds_dirs (P : list str -> Prop) (fs fs' : filesystem) : Prop :=
  forall q : list str,
    lookup_path fs' q = lookup_path fs q
    \/ (lookup_path fs q = None /\ lookup_path fs' q = Some Dir /\ P q).

(** Directories are added on the way to [target] only. *)
Definition grows_to (target : list str) (fs fs' : filesystem) : Prop :=
  adds_dirs (fun q => q `prefix_of` target) fs fs'.

(** The system lets the entry [q] be created, or opened for writing. *)
Definition creatable (q : list str) : bool :=
  negb (denied E q) && negb (failing E q).

(** The entry [q] is a directory, or is missing and may be created; the
    system answers when asked about it. *)
Definition entry_ok (fs : filesystem) (q : list str) : bool :=
  match stat_error E q with
  | Some _ => false
  | None =>
      match lookup_path fs q with
      | None => creatable q
      | Some Dir => true
      | Some (File _) | Some Link => false
      end
  end.

(** Nothing stands in the way of [os.makedirs]: it starts from a
    directory, and every component on the way is one or may be created. *)
Fixpoint way_clear (fs : filesystem) (root : bool) (rev_parts : list str) : bool :=
  match rev_parts with
  | [] => Os.isdir E fs (anchor E root)
  | _ :: rev_head =>
      way_clear fs root rev_head && entry_ok fs (anchor E root ++ rev rev_parts)
  end.

(** The file [q] may be written: it is not a directory nor a link that
    leads nowhere, and the system does not refuse. *)
Definition file_ok (fs : filesystem) (q : list str) : bool :=
  match lookup_path fs q with
  | Some Dir | Some Link => false
  | _ => creatable q
  end.

(** The path [q] leads to an entry: a directory or a file. *)
Definition present (fs : filesystem) (q : list str) : bool :=
  match lookup_path fs q with
  | Some Dir | Some (File _) => true
  | Some Link | None => false
  end.

Definition clear_to (fs : filesystem) (p : pypath) : bool :=
  way_clear fs (anchored p) (rev (parts p)).

(** The four lines that report success. *)
Definition success_lines (name : str) (sp : pypath) : list str :=
  [ py "Skill '" ++ name ++ py "' created successfully!";
    py "Next steps:";
    py "1. Edit " ++ fspath sp ++ py "/SKILL.md";
    py "2. Add scripts or references as needed." ].

(** Standard output takes the line. *)
Definition printable (l : str) : bool :=
  match stdout_error E l with
  | None => true
  | Some _ => false
  end.

(** Standard output takes what the script prints for a skill that can be
    created, or that is already there. *)
Definition hears (name : str) (is_global : bool) : bool :=
  let sp := skill_path E name is_global in
  printable (Spec.already_exists_line sp)
  && printable (Spec.creating_line name sp)
  && forallb printable (success_lines name sp).

(** The data written to the file [q] gets there. *)
Definition writable (q : list str) (data : str) : bool :=
  match write_error E q data with
  | None => true
  | Some _ => false
  end.

(** The system lets the script create what is missing: it answers when
    asked about the entries on the way, no file stands where a directory
    is needed, none of the entries to create is refused, the document can
    be written, and standard output takes what is printed. *)
Definition cooperative (fs : filesystem) (name : str) (is_global : bool) : bool :=
  let sp := skill_path E name is_global in
  clear_to fs (truediv sp (py "scripts"))
  && clear_to fs (truediv sp (py "references"))
  && clear_to fs (truediv sp (py "assets"))
  && file_ok fs (resolve E (truediv sp (py "SKILL.md")))
  && writable (resolve E (truediv sp (py "SKILL.md"))) (skill_md_content name)
  && hears name is_global.

(** The body of the [try] statement of [create_skill]. *)
Definition try_body (sp : pypath) : io unit :=
  Os.makedirs E (truediv sp (py "scripts"));;
  Os.makedirs E (truediv sp (py "references"));;
  Os.makedirs E (truediv sp (py "assets")).

(** Printing lines one after the other. *)
Fixpoint print_all (lines : list str) : io unit :=
  match lines with
  | [] => mret tt
  | l :: rest => print E l;; print_all rest
  end.

(** The handler of the [try] statement of [create_skill]. *)
Definition handler (e : exception) : io unit :=
  print E (py "Error creating directories: " ++ strerror E e);;
  sys_exit 1.

(** [q] lies strictly below the directory [base]. *)
Definition below (base q : list str) : Prop :=
  exists k : list str, k <> [] /\ q = base ++ k.

(** The places where the three calls of [os.makedirs] may add a
    directory: on the way to one of the subdirectories of [sp]. *)
Definition on_the_way (sp q : list str) : Prop :=
  q `prefix_of` (sp ++ [py "scripts"])
  \/ q `prefix_of` (sp ++ [py "references"])
  \/ q `prefix_of` (sp ++ [py "assets"]).

(** The title of a valid name over ASCII, character by character: a
    letter is uppercased unless it directly follows a letter; everything
    else is kept. *)
Fixpoint upper_after_nonletter (after_letter : bool) (s : str) : str :=
  match s with
  | [] => []
  | c :: rest =>
      (if after_letter then c else Ascii7.to_upper c)
      :: upper_after_nonletter (Ascii7.is_cased c) rest
  end.


(** The diagnostic of the [except] branch for the error [k] on [f]. *)
Definition directory_error_line (k : oserror) (f : str) : str :=
  py "Error creating directories: " ++ strerror E (OSError k (Some f)).

(** A lone surrogate: a code point that UTF-8 does not encode. *)
Definition is_surrogate (c : N) : bool := (55296 <=? c) && (c <=? 57343).

(** No lowercase letter directly follows a digit. *)
Fixpoint no_letter_after_digit (after_digit : bool) (s : str) : bool :=
  match s with
  | [] => true
  | c :: rest =>
      negb (after_digit && Ascii7.is_lower c)
      && no_letter_after_digit (Ascii7.is_digit c) rest
  end.

End Vocabulary.

(** ** Sample systems *)

(** The text of [str(e)] on a POSIX system. *)
Definition posix_strerror (e : exception) : str :=
  match e with
  | OSError k filename =>
      match k with
      | FileExistsError => py "[Errno 17] File exists"
      | FileNotFoundError => py "[Errno 2] No such file or directory"
      | NotADirectoryError => py "[Errno 20] Not a directory"
      | IsADirectoryError => py "[Errno 21] Is a directory"
      | PermissionError => py "[Errno 13] Permission denied"
      | OtherOSError => py "[Errno 28] No space left on device"
      end
      ++ match filename with
         | Some f => py ": '" ++ f ++ py "'"
         | None => []
         end
  | UnicodeEncodeError => py "'utf-8' codec can't encode characters: surrogates not allowed"
  end.

(** A user in the project directory [/tmp/proj], nothing refused. *)
Definition sample_env : environ :=
  {| home := [py "home"; py "user"];
     cwd := [py "tmp"; py "proj"];
     denied := fun _ => false;
     failing := fun _ => false;
     stat_error := fun _ => None;
     write_error := fun _ _ => None;
     stdout_error := fun _ => None;
     strerror := posix_strerror |}.

(** The same user on a system that refuses to create any [SKILL.md]. *)
Definition refusing_env : environ :=
  {| home := [py "home"; py "user"];
     cwd := [py "tmp"; py "proj"];
     denied := fun q => bool_decide (last q = Some (py "SKILL.md"));
     failing := fun _ => false;
     stat_error := fun _ => None;
     write_error := fun _ _ => None;
     stdout_error := fun _ => None;
     strerror := posix_strerror |}.

(** Another user, somewhere else. *)
Definition other_env : environ :=
  {| home := [py "Users"; py "me"];
     cwd := [py "srv"];
     denied := fun _ => false;
     failing := fun _ => false;
     stat_error := fun _ => None;
     write_error := fun _ _ => None;
     stdout_error := fun _ => None;
     strerror := posix_strerror |}.

(** An empty project directory. *)
Definition sample_fs : filesystem :=
  list_to_map [ ([py "tmp"], Dir); ([py "tmp"; py "proj"], Dir) ].

(** A project in which the directories [.opencode/skill/Bad_Name] and
    [.opencode/skill/dup] are already there. *)
Definition taken_fs : filesystem :=
  list_to_map
    [ ([py "tmp"], Dir);
      ([py "tmp"; py "proj"], Dir);
      ([py "tmp"; py "proj"; py ".opencode"], Dir);
      ([py "tmp"; py "proj"; py ".opencode"; py "skill"], Dir);
      ([py "tmp"; py "proj"; py ".opencode"; py "skill"; py "Bad_Name"], Dir);
      ([py "tmp"; py "proj"; py ".opencode"; py "skill"; py "dup"], Dir) ].

(** The sample user on a system that refuses to create any [assets]
    entry. *)
Definition assets_refusing_env : environ :=
  {| home := [py "home"; py "user"];
     cwd := [py "tmp"; py "proj"];
     denied := fun q => bool_decide (last q = Some (py "assets"));
     failing := fun _ => false;
     stat_error := fun _ => None;
     write_error := fun _ _ => None;
     stdout_error := fun _ => None;
     strerror := posix_strerror |}.

(** A project in which [.opencode/skill] is a regular file. *)
Definition blocked_fs : filesystem :=
  list_to_map
    [ ([py "tmp"], Dir);
      ([py "tmp"; py "proj"], Dir);
      ([py "tmp"; py "proj"; py ".opencode"], Dir);
      ([py "tmp"; py "proj"; py ".opencode"; py "skill"], File (py "notes")) ].


(** A user whose home directory has a name that is not UTF-8 (the byte
    [0xE9], which Python decodes to the lone surrogate U+DCE9), with a
    standard output in UTF-8. *)
Definition latin_home_env : environ :=
  {| home := [py "home"; [106; 56553]%N];
     cwd := [py "tmp"; py "proj"];
     denied := fun _ => false;
     failing := fun _ => false;
     stat_error := fun _ => None;
     write_error := fun _ _ => None;
     stdout_error := fun l => if existsb is_surrogate l then Some UnicodeEncodeError else None;
     strerror := posix_strerror |}.




(** The sample user on a full disk: a file can be created, nothing can
    be written to it. *)
Definition full_disk_env : environ :=
  {| home := [py "home"; py "user"];
     cwd := [py "tmp"; py "proj"];
     denied := fun _ => false;
     failing := fun _ => false;
     stat_error := fun _ => None;
     write_error := fun _ _ => Some (OSError OtherOSError None, []);
     stdout_error := fun _ => None;
     strerror := posix_strerror |}.

(** * Properties *)

(** ** The built-ins on examples *)

Example replace_demo : PyStr.replace hyphen [] (py "pdf-export") = py "pdfexport".
Proof. reflexivity. Qed.
Example title_demo : PyStr.title (py "pdf export") = py "Pdf Export".
Proof. reflexivity. Qed.
Example title_digit_demo : PyStr.title (py "a1b") = py "A1B".
Proof. reflexivity. Qed.
Example islower_digits_demo : PyStr.islower (py "123") = false.
Proof. reflexivity. Qed.
Example title_of_words_demo : Spec.title_of_words (py "pdf-export") = py "Pdf Export".
Proof. reflexivity. Qed.

(** ** The validation step *)

Section Validation.
Context {U : UnicodeData}.

(** Case analysis on the comparisons of a character class. *)
Ltac char_cases :=
  unfold name_char, Ascii7.is_alnum, Ascii7.is_cased, Ascii7.is_lower,
    Ascii7.is_upper, Ascii7.is_digit, hyphen in *;
  repeat match goal with
    | H : context [N.leb ?a ?b] |- _ => destruct (N.leb_spec a b)
    | |- context [N.leb ?a ?b] => destruct (N.leb_spec a b)
    | H : context [N.eqb ?a ?b] |- _ => destruct (N.eqb_spec a b)
    | |- context [N.eqb ?a ?b] => destruct (N.eqb_spec a b)
    end;
  simpl in *; try discriminate; try reflexivity; try lia.

Lemma name_char_ascii c : name_char c = true -> c < 128.
Proof. intros H. char_cases. Qed.

Lemma name_char_not_upper c :
  name_char c = true ->
  Py_UNICODE_ISUPPER c = false /\ Py_UNICODE_ISTITLE c = false.
Proof.
  intros H. pose proof (name_char_ascii c H) as Hc.
  rewrite isupper_ascii, istitle_ascii by exact Hc. split; [|reflexivity].
  clear Hc. char_cases.
Qed.

Lemma name_char_alnum c :
  name_char c = true -> c <> hyphen -> Py_UNICODE_ISALNUM c = true.
Proof.
  intros H Hh. rewrite isalnum_ascii by (apply name_char_ascii, H).
  char_cases.
Qed.



Lemma islower_loop_name_chars s : forall cased,
  forallb name_char s = true ->
  PyStr.islower_loop cased s = cased || existsb Ascii7.is_lower s.
Proof.
  induction s as [|c s IH]; intros cased H; simpl in *.
  - now rewrite orb_false_r.
  - apply andb_true_iff in H as [Hc Hs].
    destruct (name_char_not_upper c Hc) as [-> ->]. simpl.
    rewrite IH by exact Hs.
    rewrite islower_ascii by (apply name_char_ascii, Hc).
    now rewrite orb_assoc.
Qed.

Lemma replace_hyphen_alnum s :
  forallb name_char s = true ->
  forallb Py_UNICODE_ISALNUM (PyStr.replace hyphen [] s) = true.
Proof.
  induction s as [|c s IH]; intros H; simpl in *; [reflexivity|].
  apply andb_true_iff in H as [Hc Hs].
  destruct (N.eqb_spec c hyphen) as [->|Hne]; simpl.
  - apply IH, Hs.
  - rewrite (name_char_alnum c Hc Hne). apply IH, Hs.
Qed.

Lemma replace_hyphen_nonempty s :
  existsb Ascii7.is_lower s = true -> PyStr.replace hyphen [] s <> [].
Proof.
  induction s as [|c s IH]; intros H; simpl in *; [discriminate|].
  destruct (N.eqb_spec c hyphen) as [->|Hne]; simpl.
  - apply IH. exact H.
  - discriminate.
Qed.

(** A name of lowercase letters, digits and hyphens with a letter in it
    passes both checks. *)
Lemma name_chars_valid name :
  forallb name_char name = true ->
  existsb Ascii7.is_lower name = true ->
  valid_name name = true.
Proof.
  intros Hall Hlow. unfold valid_name, PyStr.isalnum, PyStr.islower.
  rewrite islower_loop_name_chars, Hlow by exact Hall.
  pose proof (replace_hyphen_nonempty name Hlow) as Hne.
  pose proof (replace_hyphen_alnum name Hall) as Hal.
  destruct (PyStr.replace hyphen [] name); [congruence|].
  now rewrite Hal.
Qed.

(** Every character that survives the stripping of the hyphens is
    alphanumeric when the name is valid. *)
Lemma valid_name_chars name c :
  valid_name name = true -> In c name -> c = hyphen \/ Py_UNICODE_ISALNUM c = true.
Proof.
  unfold valid_name, PyStr.isalnum. intros H Hin.
  apply andb_true_iff in H as [H _].
  assert (Hall : forallb Py_UNICODE_ISALNUM (PyStr.replace hyphen [] name) = true).
  { destruct (PyStr.replace hyphen [] name); [discriminate|exact H]. }
  clear H. induction name as [|d name IH]; [destruct Hin|].
  simpl in Hall. destruct (N.eqb_spec d hyphen) as [->|Hne]; simpl in Hall.
  - destruct Hin as [<-|Hin]; [now left|]. now apply IH.
  - apply andb_true_iff in Hall as [Hd Hall].
    destruct Hin as [<-|Hin]; [now right|]. now apply IH.
Qed.

Lemma valid_name_nonempty name : valid_name name = true -> name <> [].
Proof. intros H ->. discriminate H. Qed.

(** A valid name is one path component: not empty, free of slashes, and
    neither of the dot entries. *)
Lemma valid_name_component name :
  valid_name name = true ->
  name <> [] /\ ~ In slash name /\ name <> py "." /\ name <> py "..".
Proof.
  intros H.
  assert (Hno : forall c, c < 128 -> Ascii7.is_alnum c = false -> c <> hyphen -> ~ In c name).
  { intros c Hc Hal Hh Hin.
    destruct (valid_name_chars name c H Hin) as [?|Hc']; [contradiction|].
    rewrite isalnum_ascii in Hc' by exact Hc. congruence. }
  split; [now apply valid_name_nonempty|]. split; [|split].
  - apply Hno; [reflexivity|reflexivity|discriminate].
  - intros ->. apply (Hno 46); [reflexivity|reflexivity|discriminate|now left].
  - intros ->. apply (Hno 46); [reflexivity|reflexivity|discriminate|now left].
Qed.
End Validation.

(** ** The system calls *)

Section SystemCalls.
Variable E : environ.

Local Open Scope path_scope.

Lemma resolve_truediv p seg : resolve E (p / seg) = resolve E p ++ [seg].
Proof. unfold resolve, truediv. simpl. now rewrite app_assoc. Qed.

Lemma lookup_path_cons (fs : filesystem) (q : list str) : q <> [] -> lookup_path fs q = fs !! q.
Proof. destruct q; [congruence|reflexivity]. Qed.

Lemma lookup_path_None (fs : filesystem) (q : list str) :
  lookup_path fs q = None -> q <> [] /\ fs !! q = None.
Proof. destruct q; [discriminate|]. intros H. split; [discriminate|exact H]. Qed.

Lemma lookup_path_insert_eq (fs : filesystem) (q : list str) n :
  q <> [] -> lookup_path (<[q:=n]> fs) q = Some n.
Proof. intros H. rewrite lookup_path_cons by exact H. apply lookup_insert_eq. Qed.

Lemma lookup_path_insert_ne (fs : filesystem) (q q' : list str) n :
  q <> q' -> lookup_path (<[q:=n]> fs) q' = lookup_path fs q'.
Proof.
  intros H. destruct q' as [|c q']; [reflexivity|]. simpl.
  now apply lookup_insert_ne.
Qed.

Lemma grows_to_refl (target : list str) (fs : filesystem) : grows_to target fs fs.
Proof. intros q. now left. Qed.

Lemma grows_to_insert (target : list str) (fs : filesystem) :
  lookup_path fs target = None -> grows_to target fs (<[target:=Dir]> fs).
Proof.
  intros H q. destruct (decide (target = q)) as [<-|Hne].
  - right. destruct (lookup_path_None _ _ H) as [Hn _].
    split; [exact H|]. split; [now apply lookup_path_insert_eq|reflexivity].
  - left. now apply lookup_path_insert_ne.
Qed.

Lemma grows_to_trans (t1 t2 : list str) (fs1 fs2 fs3 : filesystem) :
  t1 `prefix_of` t2 -> grows_to t1 fs1 fs2 -> grows_to t2 fs2 fs3 -> grows_to t2 fs1 fs3.
Proof.
  intros Hp H12 H23 q.
  destruct (H23 q) as [e23|(n2 & d3 & p3)]; destruct (H12 q) as [e12|(n1 & d2 & p2)].
  - left. congruence.
  - right. split; [exact n1|]. split; [congruence|]. now transitivity t1.
  - right. split; [congruence|]. now split.
  - congruence.
Qed.

(** Outside the prefixes of the target nothing changes. *)
Lemma grows_to_frame (target : list str) (fs fs' : filesystem) (q : list str) :
  grows_to target fs fs' -> ~ q `prefix_of` target ->
  lookup_path fs' q = lookup_path fs q.
Proof. intros H Hn. destruct (H q) as [e|(_ & _ & Hp)]; [exact e|contradiction]. Qed.

Lemma mkdir_exist_ok_spec p s r s' :
  Os.mkdir_exist_ok E p s = (r, s') ->
  stdout s' = stdout s
  /\ grows_to (resolve E p) (files s) (files s')
  /\ (r = Val tt -> lookup_path (files s') (resolve E p) = Some Dir)
  /\ (forall n, r <> Raise (SystemExit n)).
Proof.
  unfold Os.mkdir_exist_ok, Os.mkdir, Os.create_entry, Os.isdir, Os.stat.
  destruct (lookup_path (files s) (resolve E p)) as [nd|] eqn:Hq; cbn.
  - rewrite Hq. destruct (stat_error E (resolve E p)); [|destruct nd]; intros [= <- <-];
      repeat split; auto using grows_to_refl; discriminate.
  - destruct (lookup_path (files s) (removelast (resolve E p))) as [[|c|]|] eqn:Hpar;
      cbn; [destruct (denied E (resolve E p)); [|destruct (failing E (resolve E p))]; cbn|..];
      rewrite ?Hq; try destruct (stat_error E (resolve E p)); intros [= <- <-]; cbn;
      try (repeat split; auto using grows_to_refl; discriminate).
    all: destruct (lookup_path_None _ _ Hq) as [Hne _];
      repeat split; auto using grows_to_insert, lookup_path_insert_eq.
Qed.

Lemma path_exists_true (fs : filesystem) (q : list str) :
  Os.path_exists E fs q = true ->
  stat_error E q = None /\ is_Some (lookup_path fs q).
Proof.
  unfold Os.path_exists, Os.stat. destruct (stat_error E q); [discriminate|].
  destruct (lookup_path fs q) as [[|c|]|]; [eauto|eauto|discriminate..].
Qed.

Lemma isdir_true (fs : filesystem) (q : list str) :
  Os.isdir E fs q = true ->
  stat_error E q = None /\ lookup_path fs q = Some Dir.
Proof.
  unfold Os.isdir, Os.stat. destruct (stat_error E q); [discriminate|].
  destruct (lookup_path fs q) as [[|c|]|]; now try discriminate.
Qed.

(** The recursion of [os.makedirs], one step unfolded. *)
Lemma makedirs_rev_step root tail rev_head s :
  Os.makedirs_rev E root (tail :: rev_head) s =
  let name := {| anchored := root; parts := rev (tail :: rev_head) |} in
  let head := {| anchored := root; parts := rev rev_head |} in
  match rev_head with
  | [] => Os.mkdir_exist_ok E name s
  | _ =>
      if Os.path_exists E (files s) (resolve E head)
      then Os.mkdir_exist_ok E name s
      else match Os.makedirs_rev E root rev_head s with
           | (Val _, s1) => Os.mkdir_exist_ok E name s1
           | (Raise (Exception (OSError FileExistsError _)), s1) =>
               Os.mkdir_exist_ok E name s1
           | (Raise e, s1) => (Raise e, s1)
           end
  end.
Proof.
  destruct rev_head as [|y rh]; [reflexivity|].
  remember (y :: rh) as rev_head eqn:Hrh.
  cbn [Os.makedirs_rev]. subst rev_head.
  unfold mbind, io_bind, mret, io_ret.
  cbv beta match zeta.
  destruct (Os.path_exists _ _ _); [reflexivity|].
  destruct (Os.makedirs_rev E root (y :: rh) s) as [[[]|[n|[[] f|]]] s1]; reflexivity.
Qed.

Lemma grows_to_weaken (t1 t2 : list str) (fs fs' : filesystem) :
  t1 `prefix_of` t2 -> grows_to t1 fs fs' -> grows_to t2 fs fs'.
Proof. intros Hp H. eapply grows_to_trans; eauto using grows_to_refl. Qed.

(** [os.makedirs] only adds directories on the way to its target, leaves
    standard output alone, ends with the target being a directory when
    it returns, and never exits the process. *)
Lemma makedirs_rev_spec root rp : forall s r s',
  Os.makedirs_rev E root rp s = (r, s') ->
  stdout s' = stdout s
  /\ grows_to (anchor E root ++ rev rp) (files s) (files s')
  /\ (r = Val tt -> lookup_path (files s') (anchor E root ++ rev rp) = Some Dir)
  /\ (forall n, r <> Raise (SystemExit n)).
Proof.
  induction rp as [|x rh IH]; intros s r s' H.
  - apply mkdir_exist_ok_spec in H. exact H.
  - rewrite makedirs_rev_step in H. cbv zeta in H.
    assert (Hpre : (anchor E root ++ rev rh) `prefix_of` (anchor E root ++ rev (x :: rh))).
    { exists [x]. simpl. now rewrite app_assoc. }
    destruct rh as [|y rh'].
    + apply mkdir_exist_ok_spec in H. exact H.
    + destruct (Os.path_exists _ _ _).
      * apply mkdir_exist_ok_spec in H. exact H.
      * destruct (Os.makedirs_rev E root (y :: rh') s) as [r1 s1] eqn:H1.
        apply IH in H1 as (Ho & Hg & Hd & Hx).
        assert (Hgo : forall r s', Os.mkdir_exist_ok E
                   {| anchored := root; parts := rev (x :: y :: rh') |} s1 = (r, s') ->
                 stdout s' = stdout s
                 /\ grows_to (anchor E root ++ rev (x :: y :: rh')) (files s) (files s')
                 /\ (r = Val tt ->
                     lookup_path (files s') (anchor E root ++ rev (x :: y :: rh')) = Some Dir)
                 /\ (forall n, r <> Raise (SystemExit n))).
        { intros r0 s0 H0. apply mkdir_exist_ok_spec in H0 as (Ho' & Hg' & Hd' & Hx').
          split; [congruence|]. split; [|now split].
          eapply grows_to_trans; eauto. }
        destruct r1 as [[]|[n|[k f|]]].
        -- now apply Hgo.
        -- now destruct (Hx n).
        -- destruct k; try now apply Hgo.
           all: injection H as <- <-; split; [exact Ho|];
             split; [eapply grows_to_weaken; eauto|]; split; discriminate.
        -- injection H as <- <-. split; [exact Ho|].
           split; [eapply grows_to_weaken; eauto|]. split; discriminate.
Qed.

Lemma creatable_true (q : list str) :
  creatable E q = true -> denied E q = false /\ failing E q = false.
Proof.
  unfold creatable. rewrite andb_true_iff, !negb_true_iff. tauto.
Qed.

Lemma mkdir_exist_ok_child p s :
  lookup_path (files s) (removelast (resolve E p)) = Some Dir ->
  entry_ok E (files s) (resolve E p) = true ->
  exists s', Os.mkdir_exist_ok E p s = (Val tt, s').
Proof.
  unfold entry_ok, Os.mkdir_exist_ok, Os.mkdir, Os.create_entry, Os.isdir, Os.stat.
  intros Hpar Hq.
  destruct (stat_error E (resolve E p)); [discriminate|].
  destruct (lookup_path (files s) (resolve E p)) as [[|c|]|] eqn:Hl; cbn.
  - rewrite Hl. eauto.
  - discriminate.
  - discriminate.
  - rewrite Hpar. apply creatable_true in Hq as [-> ->]. eauto.
Qed.

Lemma mkdir_exist_ok_dir p s :
  Os.isdir E (files s) (resolve E p) = true ->
  Os.mkdir_exist_ok E p s = (Val tt, s).
Proof.
  intros H. destruct (isdir_true _ _ H) as [_ Hd].
  unfold Os.mkdir_exist_ok, Os.mkdir. rewrite Hd. cbn. now rewrite H.
Qed.

Lemma not_prefix_snoc (l : list str) x : ~ (l ++ [x]) `prefix_of` l.
Proof.
  intros H. apply prefix_length in H. rewrite length_app in H. simpl in H. lia.
Qed.

Lemma entry_ok_dir (fs : filesystem) (q : list str) :
  entry_ok E fs q = true -> is_Some (lookup_path fs q) -> lookup_path fs q = Some Dir.
Proof.
  unfold entry_ok. destruct (stat_error E q); [discriminate|].
  intros H [n Hn]. rewrite Hn in *. now destruct n.
Qed.

Lemma makedirs_rev_ok root rp : forall s,
  way_clear E (files s) root rp = true ->
  exists s', Os.makedirs_rev E root rp s = (Val tt, s').
Proof.
  induction rp as [|x rh IH]; intros s Hc.
  - exists s. apply mkdir_exist_ok_dir. unfold resolve. simpl in *.
    now rewrite app_nil_r.
  - rewrite makedirs_rev_step. cbv zeta.
    cbn [way_clear] in Hc. apply andb_true_iff in Hc as [Hc Hq].
    assert (Hrm : removelast (anchor E root ++ rev (x :: rh)) = anchor E root ++ rev rh).
    { simpl. rewrite app_assoc. apply removelast_last. }
    destruct rh as [|y rh'].
    + apply mkdir_exist_ok_child; [|exact Hq].
      unfold resolve. cbn [anchored parts]. rewrite Hrm. simpl in *.
      rewrite app_nil_r. now apply isdir_true in Hc.
    + destruct (Os.path_exists _ _ _) eqn:Hex.
      * apply path_exists_true in Hex as [_ Hex].
        apply mkdir_exist_ok_child; [|exact Hq].
        unfold resolve in *. cbn [anchored parts] in *. rewrite Hrm.
        apply entry_ok_dir; [|exact Hex].
        cbn [way_clear] in Hc. now apply andb_true_iff in Hc as [_ Hc].
      * destruct (IH s Hc) as [s1 H1]. rewrite H1.
        apply makedirs_rev_spec in H1 as (_ & Hg & Hd & _).
        apply mkdir_exist_ok_child.
        -- unfold resolve. cbn [anchored parts]. rewrite Hrm. now apply Hd.
        -- unfold resolve, entry_ok in *. cbn [anchored parts] in *.
           rewrite (grows_to_frame _ _ _ _ Hg); [exact Hq|].
           simpl. rewrite app_assoc. apply not_prefix_snoc.
Qed.

Lemma adds_dirs_trans (P : list str -> Prop) (fs1 fs2 fs3 : filesystem) :
  adds_dirs P fs1 fs2 -> adds_dirs P fs2 fs3 -> adds_dirs P fs1 fs3.
Proof.
  intros H12 H23 q.
  destruct (H23 q) as [e23|(n2 & d3 & p3)]; destruct (H12 q) as [e12|(n1 & d2 & p2)].
  - left. congruence.
  - right. split; [exact n1|]. split; [congruence|exact p2].
  - right. split; [congruence|]. now split.
  - congruence.
Qed.

Lemma adds_dirs_weaken (P Q : list str -> Prop) (fs fs' : filesystem) :
  (forall q, P q -> Q q) -> adds_dirs P fs fs' -> adds_dirs Q fs fs'.
Proof.
  intros HPQ H q. destruct (H q) as [e|(n & d & Hp)]; [now left|].
  right. auto.
Qed.

Lemma adds_dirs_keeps (P : list str -> Prop) (fs fs' : filesystem) (q : list str) n :
  adds_dirs P fs fs' -> lookup_path fs q = Some n -> lookup_path fs' q = Some n.
Proof. intros H Hq. destruct (H q) as [e|(Hnone & _)]; congruence. Qed.

Lemma adds_dirs_frame (P : list str -> Prop) (fs fs' : filesystem) (q : list str) :
  adds_dirs P fs fs' -> ~ P q -> lookup_path fs' q = lookup_path fs q.
Proof. intros H Hn. destruct (H q) as [e|(_ & _ & Hp)]; [exact e|contradiction]. Qed.

(** Added directories leave the way clear. *)
Lemma entry_ok_adds (P : list str -> Prop) (fs fs' : filesystem) (q : list str) :
  adds_dirs P fs fs' -> entry_ok E fs q = true -> entry_ok E fs' q = true.
Proof.
  unfold entry_ok. intros H. destruct (stat_error E q); [tauto|].
  destruct (H q) as [->|(-> & -> & _)]; [tauto|reflexivity].
Qed.

Lemma way_clear_adds (P : list str -> Prop) (fs fs' : filesystem) root rp :
  adds_dirs P fs fs' -> way_clear E fs root rp = true -> way_clear E fs' root rp = true.
Proof.
  intros H. induction rp as [|x rh IH]; cbn [way_clear].
  - unfold Os.isdir, Os.stat. destruct (stat_error E (anchor E root)); [tauto|].
    destruct (lookup_path fs (anchor E root)) as [[|c|]|] eqn:Ha; try discriminate.
    now rewrite (adds_dirs_keeps _ _ _ _ _ H Ha).
  - rewrite !andb_true_iff. intros [Hc Hq]. split; [now apply IH|].
    eapply entry_ok_adds; eauto.
Qed.

Lemma makedirs_spec p s r s' :
  Os.makedirs E p s = (r, s') ->
  stdout s' = stdout s
  /\ grows_to (resolve E p) (files s) (files s')
  /\ (r = Val tt -> lookup_path (files s') (resolve E p) = Some Dir)
  /\ (forall n, r <> Raise (SystemExit n)).
Proof.
  unfold Os.makedirs, resolve. intros H.
  apply makedirs_rev_spec in H. now rewrite rev_involutive in H.
Qed.

Lemma makedirs_ok p s :
  clear_to E (files s) p = true -> exists s', Os.makedirs E p s = (Val tt, s').
Proof. apply makedirs_rev_ok. Qed.

(** Writing a file either creates exactly that entry with the content;
    or the file cannot be opened: an [OSError] on that file name, nothing
    changed; or the write fails on the open file, which stays with what
    reached it. *)
Lemma write_text_spec p c s r s' :
  Os.write_text E p c s = (r, s') ->
  stdout s' = stdout s
  /\ ((r = Val tt /\ resolve E p <> []
       /\ lookup_path (files s) (removelast (resolve E p)) = Some Dir
       /\ files s' = <[resolve E p := File c]> (files s))
      \/ (exists k, r = Raise (Exception (OSError k (Some (fspath p))))
                    /\ files s' = files s)
      \/ (exists e w, r = Raise (Exception e)
                      /\ write_error E (resolve E p) c = Some (e, w)
                      /\ resolve E p <> []
                      /\ files s' = <[resolve E p := File w]> (files s))).
Proof.
  unfold Os.write_text, Os.create_entry.
  destruct (lookup_path (files s) (resolve E p)) as [[|c'|]|] eqn:Hq.
  - intros [= <- <-]. split; [reflexivity|]. right. left. eauto.
  - assert (Hne : resolve E p <> []) by (intros Heq; rewrite Heq in Hq; discriminate).
    destruct (lookup_path (files s) (removelast (resolve E p))) as [[|d|]|];
      [destruct (denied E (resolve E p));
       [|destruct (failing E (resolve E p));
         [|destruct (write_error E (resolve E p) c) as [[e w]|] eqn:Hw]]|..];
      intros [= <- <-]; (split; [reflexivity|]); eauto 10.
  - intros [= <- <-]. split; [reflexivity|]. right. left. eauto.
  - assert (Hne : resolve E p <> []) by (intros Heq; rewrite Heq in Hq; discriminate).
    destruct (lookup_path (files s) (removelast (resolve E p))) as [[|d|]|];
      [destruct (denied E (resolve E p));
       [|destruct (failing E (resolve E p));
         [|destruct (write_error E (resolve E p) c) as [[e w]|] eqn:Hw]]|..];
      intros [= <- <-]; (split; [reflexivity|]); eauto 10.
Qed.

Lemma write_text_ok p c s :
  lookup_path (files s) (removelast (resolve E p)) = Some Dir ->
  file_ok E (files s) (resolve E p) = true ->
  writable E (resolve E p) c = true ->
  Os.write_text E p c s =
    (Val tt, {| files := <[resolve E p := File c]> (files s); stdout := stdout s |}).
Proof.
  unfold file_ok, writable, Os.write_text, Os.create_entry. intros Hpar Hq Hw.
  destruct (write_error E (resolve E p) c); [discriminate|].
  destruct (lookup_path (files s) (resolve E p)) as [[|c'|]|]; try discriminate;
    rewrite Hpar; apply creatable_true in Hq as [-> ->]; reflexivity.
Qed.

Lemma resolve_child_neq p (a b : str) :
  a <> b -> ~ (resolve E p ++ [a]) `prefix_of` (resolve E p ++ [b]).
Proof.
  intros Hab Hp. apply prefix_app_inv in Hp. destruct Hp as [k Hk].
  simpl in Hk. congruence.
Qed.

(** The three calls of [os.makedirs]: directories are added on the way to
    the three subdirectories only, which are directories in the end when
    the calls return. *)
Lemma try_body_spec sp s r s' :
  try_body E sp s = (r, s') ->
  stdout s' = stdout s
  /\ adds_dirs (on_the_way (resolve E sp)) (files s) (files s')
  /\ (r = Val tt ->
      lookup_path (files s') (resolve E sp ++ [py "scripts"]) = Some Dir
      /\ lookup_path (files s') (resolve E sp ++ [py "references"]) = Some Dir
      /\ lookup_path (files s') (resolve E sp ++ [py "assets"]) = Some Dir)
  /\ (forall n, r <> Raise (SystemExit n)).
Proof.
  unfold try_body, mbind, io_bind.
  destruct (Os.makedirs E (sp / py "scripts") s) as [r1 s1] eqn:H1.
  apply makedirs_spec in H1 as (Ho1 & Hg1 & Hd1 & Hx1).
  rewrite resolve_truediv in Hg1, Hd1.
  assert (Ha1 : adds_dirs (on_the_way (resolve E sp)) (files s) (files s1)).
  { eapply adds_dirs_weaken; [|exact Hg1]. intros q Hq. now left. }
  destruct r1 as [[]|e1].
  2:{ intros [= <- <-]. split; [exact Ho1|]. split; [exact Ha1|].
      split; [discriminate|exact Hx1]. }
  destruct (Os.makedirs E (sp / py "references") s1) as [r2 s2] eqn:H2.
  apply makedirs_spec in H2 as (Ho2 & Hg2 & Hd2 & Hx2).
  rewrite resolve_truediv in Hg2, Hd2.
  assert (Ha2 : adds_dirs (on_the_way (resolve E sp)) (files s) (files s2)).
  { eapply adds_dirs_trans; [exact Ha1|].
    eapply adds_dirs_weaken; [|exact Hg2]. intros q Hq. right. now left. }
  destruct r2 as [[]|e2].
  2:{ intros [= <- <-]. split; [congruence|]. split; [exact Ha2|].
      split; [discriminate|exact Hx2]. }
  intros H3. apply makedirs_spec in H3 as (Ho3 & Hg3 & Hd3 & Hx3).
  rewrite resolve_truediv in Hg3, Hd3.
  split; [congruence|]. split; [|split; [|exact Hx3]].
  - eapply adds_dirs_trans; [exact Ha2|].
    eapply adds_dirs_weaken; [|exact Hg3]. intros q Hq. right. now right.
  - intros Hr. split; [|split; [|now apply Hd3]].
    + eapply adds_dirs_keeps; [exact Hg3|].
      eapply adds_dirs_keeps; [exact Hg2|]. now apply Hd1.
    + eapply adds_dirs_keeps; [exact Hg3|]. now apply Hd2.
Qed.

(** With a clear way, [os.makedirs] returns and leaves the parent of its
    target a directory. *)
Lemma makedirs_rev_ok_parent root x rh s :
  way_clear E (files s) root (x :: rh) = true ->
  exists s', Os.makedirs_rev E root (x :: rh) s = (Val tt, s')
    /\ lookup_path (files s') (anchor E root ++ rev rh) = Some Dir.
Proof.
  intros Hc. destruct (makedirs_rev_ok _ _ _ Hc) as [s' H]. exists s'.
  split; [exact H|]. rewrite makedirs_rev_step in H. cbv zeta in H.
  cbn [way_clear] in Hc. apply andb_true_iff in Hc as [Hc _].
  destruct rh as [|y rh'].
  - apply mkdir_exist_ok_spec in H as (_ & Hg & _).
    eapply adds_dirs_keeps; [exact Hg|]. simpl in *. rewrite app_nil_r.
    now apply isdir_true in Hc.
  - destruct (Os.path_exists _ _ _) eqn:Hex.
    + apply path_exists_true in Hex as [_ Hex].
      unfold resolve in Hex. cbn [anchored parts] in Hex.
      apply mkdir_exist_ok_spec in H as (_ & Hg & _).
      eapply adds_dirs_keeps; [exact Hg|].
      apply entry_ok_dir; [|exact Hex].
      cbn [way_clear] in Hc. now apply andb_true_iff in Hc as [_ Hc].
    + destruct (makedirs_rev_ok _ _ _ Hc) as [s1 H1]. rewrite H1 in H.
      apply makedirs_rev_spec in H1 as (_ & _ & Hd & _).
      apply mkdir_exist_ok_spec in H as (_ & Hg & _).
      eapply adds_dirs_keeps; [exact Hg|]. now apply Hd.
Qed.

Lemma try_body_ok sp s :
  clear_to E (files s) (sp / py "scripts") = true ->
  clear_to E (files s) (sp / py "references") = true ->
  clear_to E (files s) (sp / py "assets") = true ->
  exists s', try_body E sp s = (Val tt, s')
    /\ lookup_path (files s') (resolve E sp) = Some Dir.
Proof.
  intros C1 C2 C3. unfold try_body, mbind, io_bind.
  assert (H1 : exists s1, Os.makedirs E (sp / py "scripts") s = (Val tt, s1)
             /\ lookup_path (files s1) (resolve E sp) = Some Dir).
  { unfold Os.makedirs, clear_to, truediv in *. cbn [anchored parts] in *.
    rewrite rev_app_distr in *. cbn [rev app] in *.
    destruct (makedirs_rev_ok_parent _ _ _ _ C1) as (s1 & H1 & Hd).
    exists s1. split; [exact H1|]. now rewrite rev_involutive in Hd. }
  destruct H1 as (s1 & H1 & Hsp). rewrite H1.
  apply makedirs_spec in H1 as (_ & Hg1 & _).
  assert (C2' : clear_to E (files s1) (sp / py "references") = true)
    by (eapply way_clear_adds; eauto).
  destruct (makedirs_ok _ _ C2') as [s2 H2]. rewrite H2.
  apply makedirs_spec in H2 as (_ & Hg2 & _).
  assert (C3' : clear_to E (files s2) (sp / py "assets") = true).
  { eapply way_clear_adds; [exact Hg2|]. eapply way_clear_adds; eauto. }
  destruct (makedirs_ok _ _ C3') as [s3 H3]. rewrite H3. exists s3.
  split; [reflexivity|].
  apply makedirs_spec in H3 as (_ & Hg3 & _).
  eapply adds_dirs_keeps; [exact Hg3|]. eapply adds_dirs_keeps; [exact Hg2|exact Hsp].
Qed.

End SystemCalls.

(** ** The script, phase by phase *)

Section Phases.
Context {U : UnicodeData}.
Variable E : environ.

Local Open Scope path_scope.

Lemma print_ok l s :
  printable E l = true ->
  print E l s = (Val tt, {| files := files s; stdout := stdout s ++ [l] |}).
Proof. unfold printable, print. now destruct (stdout_error E l). Qed.

Lemma print_fails l e s :
  stdout_error E l = Some e -> print E l s = (Raise (Exception e), s).
Proof. unfold print. now intros ->. Qed.

Lemma printable_None l : printable E l = true <-> stdout_error E l = None.
Proof. unfold printable. destruct (stdout_error E l); split; congruence. Qed.

(** Printing lines: all of them are printed, or the stream raises after
    some of them. *)
Lemma print_all_spec ls : forall s r s',
  print_all E ls s = (r, s') ->
  files s' = files s
  /\ ((r = Val tt /\ stdout s' = stdout s ++ ls)
      \/ (exists e done, r = Raise (Exception e) /\ stdout s' = stdout s ++ done)).
Proof.
  induction ls as [|l ls IH]; intros s r s'.
  - intros [= <- <-]. split; [reflexivity|]. left. now rewrite app_nil_r.
  - cbn [print_all]. unfold mbind, io_bind, print at 1.
    destruct (stdout_error E l) as [e|].
    + intros [= <- <-]. split; [reflexivity|]. right. exists e, []. now rewrite app_nil_r.
    + intros H. apply IH in H as [Hf [[-> Ho]|(e & done & -> & Ho)]]; cbn [files stdout] in *.
      * split; [exact Hf|]. left. split; [reflexivity|]. now rewrite Ho, <- app_assoc.
      * split; [exact Hf|]. right. exists e, (l :: done). split; [reflexivity|].
        now rewrite Ho, <- app_assoc.
Qed.

Lemma print_all_ok ls : forall s,
  forallb (printable E) ls = true ->
  print_all E ls s = (Val tt, {| files := files s; stdout := stdout s ++ ls |}).
Proof.
  induction ls as [|l ls IH]; intros s H.
  - cbn. rewrite app_nil_r. now destruct s.
  - cbn [forallb] in H. apply andb_true_iff in H as [Hl H].
    cbn [print_all]. unfold mbind, io_bind. rewrite print_ok by exact Hl.
    rewrite IH by exact H. cbn [files stdout]. now rewrite <- app_assoc.
Qed.

(** [p.exists()] answers by the file system when [os.stat] does not fail,
    and raises otherwise. *)
Lemma Path_exists_answers p s :
  stat_error E (resolve E p) = None ->
  Path_exists E p s = (Val (present (files s) (resolve E p)), s).
Proof.
  unfold Path_exists, Os.stat, present. intros ->.
  now destruct (lookup_path (files s) (resolve E p)) as [[|c|]|].
Qed.

Lemma present_absent (fs : filesystem) (q : list str) :
  lookup_path fs q = None -> present fs q = false.
Proof. unfold present. now intros ->. Qed.

Lemma present_is_Some (fs : filesystem) (q : list str) :
  present fs q = true -> is_Some (lookup_path fs q).
Proof. unfold present. destruct (lookup_path fs q); [eauto|discriminate]. Qed.

Lemma Path_exists_raises p k s :
  stat_error E (resolve E p) = Some k ->
  Path_exists E p s = (Raise (Exception (OSError (oserror_of k) (Some (fspath p)))), s).
Proof. unfold Path_exists, Os.stat. intros ->. now destruct k. Qed.

Lemma create_skill_invalid name is_global s :
  valid_name name = false ->
  create_skill E name is_global s =
    (print E (Spec.invalid_name_line name);; sys_exit 1) s.
Proof.
  unfold valid_name, create_skill. intros H.
  rewrite <- negb_andb, H. cbn [negb]. unfold Spec.invalid_name_line, mbind, io_bind.
  destruct (print E _ s) as [[[]|e] s1]; reflexivity.
Qed.

Lemma create_skill_valid name is_global s :
  valid_name name = true ->
  create_skill E name is_global s =
    let sp := skill_path E name is_global in
    match Path_exists E sp s with
    | (Val true, s0) => (print E (Spec.already_exists_line sp);; sys_exit 1) s0
    | (Val false, s0) =>
        (print E (Spec.creating_line name sp);;
         try_except (try_body E sp) (handler E);;
         Os.write_text E (sp / py "SKILL.md") (skill_md_content name);;
         print_all E (success_lines name sp)) s0
    | (Raise e, s0) => (Raise e, s0)
    end.
Proof.
  unfold valid_name, create_skill. intros H.
  rewrite <- negb_andb, H. cbv zeta. cbn [negb].
  unfold try_body, handler, Spec.creating_line, Spec.already_exists_line, success_lines.
  cbn [print_all].
  unfold mbind, io_bind, mret, io_ret. cbv beta match.
  destruct (Path_exists E _ s) as [[[]|e] s0]; [| |reflexivity].
  - destruct (print E _ s0) as [[[]|e] s1]; reflexivity.
  - destruct (print E _ s0) as [[[]|e] s1]; [|reflexivity].
    destruct (try_except _ _ s1) as [[[]|e] s2]; [|reflexivity].
    destruct (Os.write_text E _ _ s2) as [[[]|e] s3]; [|reflexivity].
    repeat match goal with
      | |- context [print E ?l ?s] =>
          destruct (print E l s) as [[[]|?] ?]; try reflexivity
      end.
Qed.
End Phases.

(** ** Whole runs *)

Section Runs.
Context {U : UnicodeData}.
Variable E : environ.

Local Open Scope path_scope.

(** An invalid name ends the run at the first check: with the diagnostic
    when standard output takes it, with the exception of [print] when it
    does not. *)
Lemma main_invalid name is_global fs :
  valid_name name = false ->
  main E name is_global fs =
    match stdout_error E (Spec.invalid_name_line name) with
    | None =>
        {| exit_status := 1; output := [Spec.invalid_name_line name];
           traceback := None; disk := fs |}
    | Some e =>
        {| exit_status := 1; output := []; traceback := Some e; disk := fs |}
    end.
Proof.
  intros H. unfold main. rewrite create_skill_invalid by exact H.
  unfold mbind, io_bind, print. now destruct (stdout_error E _).
Qed.

(** A valid name whose target cannot be examined ends the run with the
    exception of [Path.exists]. *)
Lemma main_unanswered name is_global fs k :
  valid_name name = true ->
  stat_error E (resolve E (skill_path E name is_global)) = Some k ->
  main E name is_global fs =
    {| exit_status := 1; output := [];
       traceback := Some (OSError (oserror_of k) (Some (fspath (skill_path E name is_global))));
       disk := fs |}.
Proof.
  intros H Hk. unfold main. rewrite create_skill_valid by exact H.
  cbv zeta. now rewrite (Path_exists_raises E _ k) by exact Hk.
Qed.

(** A valid name whose target exists ends the run at the second check. *)
Lemma main_exists name is_global fs :
  valid_name name = true ->
  stat_error E (resolve E (skill_path E name is_global)) = None ->
  present fs (resolve E (skill_path E name is_global)) = true ->
  main E name is_global fs =
    match stdout_error E (Spec.already_exists_line (skill_path E name is_global)) with
    | None =>
        {| exit_status := 1;
           output := [Spec.already_exists_line (skill_path E name is_global)];
           traceback := None; disk := fs |}
    | Some e =>
        {| exit_status := 1; output := []; traceback := Some e; disk := fs |}
    end.
Proof.
  intros H Hst Hex. unfold main. rewrite create_skill_valid by exact H.
  cbv zeta. rewrite Path_exists_answers by exact Hst. cbn [files stdout].
  rewrite Hex.
  unfold mbind, io_bind, print. now destruct (stdout_error E _).
Qed.

(** The [try] statement: the directories are there, or the handler has
    printed its line and exits, or the handler's [print] raises. *)
Lemma try_statement_spec sp s r s' :
  try_except (try_body E sp) (handler E) s = (r, s') ->
  adds_dirs (on_the_way (resolve E sp)) (files s) (files s')
  /\ ((r = Val tt /\ stdout s' = stdout s
       /\ lookup_path (files s') (resolve E sp ++ [py "scripts"]) = Some Dir
       /\ lookup_path (files s') (resolve E sp ++ [py "references"]) = Some Dir
       /\ lookup_path (files s') (resolve E sp ++ [py "assets"]) = Some Dir)
      \/ (exists e, r = Raise (SystemExit 1)
                   /\ stdout s' = stdout s ++ [py "Error creating directories: " ++ strerror E e])
      \/ (exists e, r = Raise (Exception e) /\ stdout s' = stdout s)).
Proof.
  unfold try_except.
  destruct (try_body E sp s) as [r1 s1] eqn:H1.
  apply try_body_spec in H1 as (Ho1 & Ha1 & Hd1 & Hx1).
  destruct r1 as [[]|[n|e]].
  - intros [= <- <-]. split; [exact Ha1|]. left.
    destruct (Hd1 eq_refl) as (? & ? & ?). auto.
  - now destruct (Hx1 n).
  - unfold handler, mbind, io_bind, print, sys_exit, raise.
    destruct (stdout_error E _) as [e'|]; intros [= <- <-]; cbn [files stdout];
      (split; [exact Ha1|]); right.
    + right. eauto.
    + left. exists e. now rewrite Ho1.
Qed.

(** A valid name whose target is not found, on a system that answers: how
    the run can end. *)
Lemma main_fresh name is_global fs :
  valid_name name = true ->
  stat_error E (resolve E (skill_path E name is_global)) = None ->
  present fs (resolve E (skill_path E name is_global)) = false ->
  let sp := skill_path E name is_global in
  let md := resolve E sp ++ [py "SKILL.md"] in
  let p := main E name is_global fs in
  (exists e,
      stdout_error E (Spec.creating_line name sp) = Some e
      /\ p = {| exit_status := 1; output := []; traceback := Some e; disk := fs |})
  \/ (exists fs1,
      adds_dirs (on_the_way (resolve E sp)) fs fs1
      /\ stdout_error E (Spec.creating_line name sp) = None
      /\ ((exists e,
             p = {| exit_status := 1;
                    output := [Spec.creating_line name sp;
                               py "Error creating directories: " ++ strerror E e];
                    traceback := None; disk := fs1 |})
          \/ (exists e,
             p = {| exit_status := 1; output := [Spec.creating_line name sp];
                    traceback := Some e; disk := fs1 |})
          \/ (exists e w,
             write_error E md (skill_md_content name) = Some (e, w)
             /\ p = {| exit_status := 1; output := [Spec.creating_line name sp];
                       traceback := Some e; disk := <[md := File w]> fs1 |})
          \/ (exists e done,
             p = {| exit_status := 1; output := Spec.creating_line name sp :: done;
                    traceback := Some e;
                    disk := <[md := File (skill_md_content name)]> fs1 |})
          \/ (lookup_path fs1 (resolve E sp) = Some Dir
              /\ lookup_path fs1 (resolve E sp ++ [py "scripts"]) = Some Dir
              /\ lookup_path fs1 (resolve E sp ++ [py "references"]) = Some Dir
              /\ lookup_path fs1 (resolve E sp ++ [py "assets"]) = Some Dir
              /\ p = {| exit_status := 0;
                        output := Spec.creating_line name sp :: success_lines name sp;
                        traceback := None;
                        disk := <[md := File (skill_md_content name)]> fs1 |}))).
Proof.
  intros H Hst Hno sp md p. subst p md. unfold main.
  rewrite create_skill_valid by exact H. cbv zeta.
  rewrite Path_exists_answers by exact Hst. cbn [files stdout].
  rewrite Hno.
  fold sp. unfold mbind, io_bind.
  destruct (stdout_error E (Spec.creating_line name sp)) as [e0|] eqn:Hp0.
  { left. exists e0. split; [reflexivity|].
    now rewrite (print_fails E _ e0) by exact Hp0. }
  right. rewrite print_ok by now apply printable_None.
  destruct (try_except (try_body E sp) (handler E) _) as [r1 s1] eqn:H1.
  apply try_statement_spec in H1
    as (Ha1 & [(-> & Ho1 & Hs & Hr & Has)|[(e & -> & Ho1)|(e & -> & Ho1)]]);
    cbn [files stdout] in *; exists (files s1); (split; [exact Ha1|]);
    (split; [reflexivity|]).
  - destruct (Os.write_text E _ _ s1) as [r2 s2] eqn:H2.
    apply write_text_spec in H2
      as (Ho2 & [(-> & Hne & Hpar & Hf)|[(k & -> & Hf)|(e & w & -> & Hw & Hne & Hf)]]);
      rewrite ?resolve_truediv in *.
    + rewrite removelast_last in Hpar.
      destruct (print_all E _ s2) as [r3 s3] eqn:H3.
      apply print_all_spec in H3 as (Hf3 & [(-> & Ho3)|(e & done & -> & Ho3)]).
      * do 4 right. repeat (split; [assumption|]).
        now rewrite Hf3, Hf, Ho3, Ho2, Ho1.
      * do 3 right. left. exists e, done. now rewrite Hf3, Hf, Ho3, Ho2, Ho1.
    + right. left. eexists. now rewrite Hf, Ho2, Ho1.
    + do 2 right. left. exists e, w. split; [exact Hw|]. now rewrite Hf, Ho2, Ho1.
  - left. exists e. now rewrite Ho1.
  - right. left. exists e. now rewrite Ho1.
Qed.

(** When the system cooperates, a valid name with a free target succeeds. *)
Lemma main_cooperative name is_global fs :
  valid_name name = true ->
  lookup_path fs (resolve E (skill_path E name is_global)) = None ->
  cooperative E fs name is_global = true ->
  exit_status (main E name is_global fs) = 0%Z.
Proof.
  intros H Hno Hco. unfold main.
  rewrite create_skill_valid by exact H. cbv zeta.
  unfold cooperative in Hco. cbv zeta in Hco.
  apply andb_true_iff in Hco as [Hco Hh]. apply andb_true_iff in Hco as [Hco Hwr].
  apply andb_true_iff in Hco as [Hco Hw]. apply andb_true_iff in Hco as [Hco C3].
  apply andb_true_iff in Hco as [C1 C2].
  unfold hears in Hh. cbv zeta in Hh.
  apply andb_true_iff in Hh as [Hh Hsl]. apply andb_true_iff in Hh as [_ Hcl].
  set (sp := skill_path E name is_global) in *.
  assert (Hst : stat_error E (resolve E sp) = None).
  { unfold clear_to in C1. unfold truediv in C1. cbn [parts anchored] in C1.
    rewrite rev_app_distr in C1. cbn [rev app way_clear] in C1.
    apply andb_true_iff in C1 as [C1 _].
    destruct (rev (parts sp)) as [|x rh] eqn:Hrev.
    - apply (f_equal (@rev str)) in Hrev. rewrite rev_involutive in Hrev.
      cbn [way_clear] in C1. apply isdir_true in C1 as [C1 _].
      unfold resolve. rewrite Hrev. cbn. now rewrite app_nil_r.
    - cbn [way_clear] in C1. apply andb_true_iff in C1 as [_ C1].
      unfold entry_ok in C1. rewrite <- Hrev, rev_involutive in C1.
      unfold resolve. now destruct (stat_error E _). }
  rewrite Path_exists_answers by exact Hst. cbn [files stdout].
  rewrite present_absent by exact Hno.
  unfold mbind, io_bind. rewrite print_ok by exact Hcl.
  set (s0 := {| files := _; stdout := _ |}).
  unfold try_except.
  destruct (try_body_ok E sp s0 C1 C2 C3) as (s1 & H1 & Hsp). rewrite H1.
  apply try_body_spec in H1 as (_ & Ha1 & _).
  rewrite write_text_ok.
  - now rewrite print_all_ok by exact Hsl.
  - rewrite resolve_truediv, removelast_last. exact Hsp.
  - unfold file_ok in *. rewrite resolve_truediv in *.
    rewrite (adds_dirs_frame _ _ _ _ Ha1); [exact Hw|].
    intros [Hp|[Hp|Hp]]; revert Hp; apply resolve_child_neq; discriminate.
  - exact Hwr.
Qed.
End Runs.

(** ** Two lines never mistaken for one another *)

Section Lines.
Context {U : UnicodeData}.
Variable E : environ.

Lemma first_line_eq (a b : str) (l l' : list str) : a :: l = b :: l' -> a = b.
Proof. congruence. Qed.

Lemma creating_not_invalid name sp :
  Spec.creating_line name sp <> Spec.invalid_name_line name.
Proof. discriminate. Qed.

Lemma creating_not_exists name sp sp' :
  Spec.creating_line name sp <> Spec.already_exists_line sp'.
Proof. discriminate. Qed.

Lemma exists_not_invalid name sp :
  Spec.already_exists_line sp <> Spec.invalid_name_line name.
Proof. discriminate. Qed.

(** A run that exits with 0 went through every phase. *)
Lemma main_success name is_global fs :
  Spec.Success (main E name is_global fs) ->
  let sp := skill_path E name is_global in
  valid_name name = true
  /\ lookup_path fs (resolve E sp) = None
  /\ exists fs1,
      adds_dirs (on_the_way (resolve E sp)) fs fs1
      /\ lookup_path fs1 (resolve E sp) = Some Dir
      /\ lookup_path fs1 (resolve E sp ++ [py "scripts"]) = Some Dir
      /\ lookup_path fs1 (resolve E sp ++ [py "references"]) = Some Dir
      /\ lookup_path fs1 (resolve E sp ++ [py "assets"]) = Some Dir
      /\ main E name is_global fs =
         {| exit_status := 0;
            output := Spec.creating_line name sp :: success_lines name sp;
            traceback := None;
            disk := <[resolve E sp ++ [py "SKILL.md"] := File (skill_md_content name)]> fs1 |}.
Proof.
  intros Hs sp. unfold Spec.Success in Hs.
  destruct (valid_name name) eqn:Hv.
  2:{ rewrite main_invalid in Hs by exact Hv.
      destruct (stdout_error E _); discriminate. }
  destruct (stat_error E (resolve E sp)) as [k|] eqn:Hst.
  { rewrite (main_unanswered E name is_global fs k) in Hs by assumption. discriminate. }
  destruct (present fs (resolve E sp)) eqn:Hl.
  { rewrite main_exists in Hs; [|exact Hv|exact Hst|exact Hl].
    destruct (stdout_error E _); discriminate. }
  split; [reflexivity|].
  destruct (main_fresh E name is_global fs Hv Hst Hl)
    as [(e & _ & Hp)|(fs1 & Ha & _ & [(e & Hp)|[(e & Hp)|[(e & w & _ & Hp)|[(e & d & Hp)|H]]]])];
    try (rewrite Hp in Hs; discriminate).
  split; [|exists fs1; split; [exact Ha|exact H]].
  destruct H as (Hd & _). fold sp in Ha, Hd. unfold present in Hl.
  destruct (Ha (resolve E sp)) as [Heq|(Hnone & _)]; [|exact Hnone].
  rewrite Hd in Heq. rewrite <- Heq in Hl. discriminate Hl.
Qed.

(** A run that exits with 0 was answered by [os.stat] and heard by
    standard output. *)
Lemma main_success_answered name is_global fs :
  Spec.Success (main E name is_global fs) ->
  stat_error E (resolve E (skill_path E name is_global)) = None.
Proof.
  intros Hs. unfold Spec.Success in Hs.
  destruct (valid_name name) eqn:Hv.
  2:{ rewrite main_invalid in Hs by exact Hv.
      destruct (stdout_error E _); discriminate. }
  destruct (stat_error E _) as [k|] eqn:Hst; [|reflexivity].
  rewrite (main_unanswered E name is_global fs k) in Hs by assumption. discriminate.
Qed.
End Lines.

(** ** The rendered document and the title *)

Section Rendering.
Context {U : UnicodeData}.
Variable E : environ.

Local Open Scope path_scope.

(** The f-string of the script is the document of section 6. *)
Lemma skill_md_content_template name :
  skill_md_content name =
  Spec.text (Spec.SKILL_md name (PyStr.title (PyStr.replace hyphen [space] name))).
Proof.
  unfold skill_md_content, Spec.text, Spec.SKILL_md. cbn [map concat].
  now rewrite app_nil_r.
Qed.

Lemma islower_loop_no_upper s : forall cased c,
  PyStr.islower_loop cased s = true -> In c s -> Py_UNICODE_ISUPPER c = false.
Proof.
  induction s as [|d s IH]; intros cased c H Hin; [destruct Hin|].
  simpl in H. destruct (Py_UNICODE_ISUPPER d) eqn:Hd; simpl in H; [discriminate|].
  destruct (Py_UNICODE_ISTITLE d); [discriminate|].
  destruct Hin as [<-|Hin]; [exact Hd|]. eapply IH; eauto.
Qed.

(** On ASCII text without capitals, [str.title] uppercases the letters
    that do not follow a letter and keeps the rest. *)
Lemma title_loop_ascii s : forall prev seen,
  (forall c, In c s -> c < 128 /\ Ascii7.is_upper c = false) ->
  PyStr.title_loop prev seen s = upper_after_nonletter prev s.
Proof.
  induction s as [|c s IH]; intros prev seen H; [reflexivity|].
  destruct (H c (or_introl eq_refl)) as [Hc Hu].
  cbn [PyStr.title_loop upper_after_nonletter].
  rewrite IH by (intros d Hd; apply H; now right).
  rewrite iscased_ascii by exact Hc.
  destruct prev.
  - rewrite tolower_ascii by exact Hc. unfold Ascii7.to_lower. now rewrite Hu.
  - now rewrite totitle_ascii by exact Hc.
Qed.

Lemma in_replace_hyphen_space name c :
  In c (PyStr.replace hyphen [space] name) -> c = space \/ In c name.
Proof.
  induction name as [|d name IH]; [intros []|]. simpl.
  destruct (d =? hyphen); simpl; intros [<-|Hin]; auto; destruct (IH Hin); auto.
Qed.

Lemma title_of_valid_ascii name :
  valid_name name = true ->
  forallb (fun c => c <? 128) name = true ->
  PyStr.title (PyStr.replace hyphen [space] name)
  = upper_after_nonletter false (PyStr.replace hyphen [space] name).
Proof.
  intros Hv Ha. apply title_loop_ascii. intros c Hin.
  destruct (in_replace_hyphen_space name c Hin) as [->|Hc]; [now split|].
  rewrite forallb_forall in Ha. pose proof (Ha c Hc) as Hlt.
  apply N.ltb_lt in Hlt. split; [exact Hlt|].
  rewrite <- isupper_ascii by exact Hlt.
  unfold valid_name in Hv. apply andb_true_iff in Hv as [_ Hv].
  eapply islower_loop_no_upper; eauto.
Qed.

Lemma pdf_export_valid : valid_name (py "pdf-export") = true.
Proof. apply name_chars_valid; reflexivity. Qed.

Lemma pdf_export_document :
  skill_md_content (py "pdf-export")
  = Spec.text (Spec.SKILL_md (py "pdf-export") (py "Pdf Export")).
Proof.
  rewrite skill_md_content_template.
  rewrite title_of_valid_ascii; [reflexivity|apply pdf_export_valid|reflexivity].
Qed.

(** ** What a successful run leaves on disk *)

Lemma snoc_neq (l : list str) x : l ++ [x] <> l.
Proof.
  intros H. apply (f_equal length) in H. rewrite length_app in H. simpl in H. lia.
Qed.

Lemma snoc_inj (l : list str) x y : l ++ [x] = l ++ [y] -> x = y.
Proof. intros H. apply app_inv_head in H. congruence. Qed.

Lemma prefix_two (k : list str) a b :
  k `prefix_of` [a; b] -> k = [] \/ k = [a] \/ k = [a; b].
Proof.
  intros [t Ht]. destruct k as [|c [|d [|e k]]]; simpl in Ht.
  - now left.
  - right. left. congruence.
  - right. right. congruence.
  - discriminate.
Qed.

Lemma on_the_way_below (base : list str) name q :
  below base q -> on_the_way (base ++ [name]) q ->
  q = base ++ [name]
  \/ q = (base ++ [name]) ++ [py "scripts"]
  \/ q = (base ++ [name]) ++ [py "references"]
  \/ q = (base ++ [name]) ++ [py "assets"].
Proof.
  intros (k & Hk & ->) Hw.
  assert (Hcase : forall x, (base ++ k) `prefix_of` ((base ++ [name]) ++ [x]) ->
            k = [name] \/ k = [name; x]).
  { intros x Hp. rewrite <- app_assoc in Hp. apply prefix_app_inv in Hp.
    destruct (prefix_two _ _ _ Hp) as [?|[?|?]]; [contradiction|now left|now right]. }
  destruct Hw as [Hp|[Hp|Hp]]; apply Hcase in Hp as [->| ->];
    rewrite <- ?app_assoc; auto.
Qed.

Lemma resolve_skill_path name is_global :
  resolve E (skill_path E name is_global) = resolve E (base_path E is_global) ++ [name].
Proof. unfold skill_path. apply resolve_truediv. Qed.

(** A run that exits with 0 has written the rendered document. *)
Lemma success_writes name is_global fs :
  Spec.Success (main E name is_global fs) ->
  lookup_path (disk (main E name is_global fs))
    (resolve E (skill_path E name is_global / py "SKILL.md"))
  = Some (File (skill_md_content name)).
Proof.
  intros Hs. destruct (main_success E name is_global fs Hs)
    as (_ & _ & fs1 & _ & _ & _ & _ & _ & ->).
  cbn [disk]. rewrite resolve_truediv. apply lookup_path_insert_eq.
  intros H. now apply app_eq_nil in H as [_ H].
Qed.

(** ... and the skill directory is there. *)
Lemma success_directory name is_global fs :
  Spec.Success (main E name is_global fs) ->
  lookup_path (disk (main E name is_global fs)) (resolve E (skill_path E name is_global))
  = Some Dir.
Proof.
  intros Hs. destruct (main_success E name is_global fs Hs)
    as (_ & _ & fs1 & _ & Hd & _ & _ & _ & ->).
  cbn [disk]. rewrite lookup_path_insert_ne; [exact Hd|apply snoc_neq].
Qed.
End Rendering.

(** ** How runs end *)

Section Outcomes.
Context {U : UnicodeData}.
Variable E : environ.

Local Open Scope path_scope.

(** A clear way to a child of [sp] passes through [sp], about which the
    system answers. *)
Lemma clear_to_answered (fs : filesystem) (sp : pypath) (seg : str) :
  clear_to E fs (sp / seg) = true -> stat_error E (resolve E sp) = None.
Proof.
  unfold clear_to, truediv. cbn [parts anchored].
  rewrite rev_app_distr. cbn [rev app way_clear].
  intros C. apply andb_true_iff in C as [C _].
  destruct (rev (parts sp)) as [|x rh] eqn:Hrev.
  - apply (f_equal (@rev str)) in Hrev. rewrite rev_involutive in Hrev.
    cbn [way_clear] in C. apply isdir_true in C as [C _].
    unfold resolve. rewrite Hrev. cbn. now rewrite app_nil_r.
  - cbn [way_clear] in C. apply andb_true_iff in C as [_ C].
    unfold entry_ok in C. rewrite <- Hrev, rev_involutive in C.
    unfold resolve. now destruct (stat_error E _).
Qed.

(** A valid name, a free target about which the system answers, and the
    progress line printed: the run is at the [try] statement. *)
Lemma create_skill_fresh name is_global s :
  valid_name name = true ->
  stat_error E (resolve E (skill_path E name is_global)) = None ->
  lookup_path (files s) (resolve E (skill_path E name is_global)) = None ->
  printable E (Spec.creating_line name (skill_path E name is_global)) = true ->
  create_skill E name is_global s =
    let sp := skill_path E name is_global in
    match try_body E sp
            {| files := files s; stdout := stdout s ++ [Spec.creating_line name sp] |} with
    | (Val _, s1) =>
        match Os.write_text E (sp / py "SKILL.md") (skill_md_content name) s1 with
        | (Val _, s2) => print_all E (success_lines name sp) s2
        | (Raise e, s2) => (Raise e, s2)
        end
    | (Raise (Exception e), s1) => handler E e s1
    | (Raise (SystemExit n), s1) => (Raise (SystemExit n), s1)
    end.
Proof.
  intros Hv Hst Hno Hpr. rewrite create_skill_valid by exact Hv. cbv zeta.
  rewrite Path_exists_answers by exact Hst.
  rewrite present_absent by exact Hno.
  unfold mbind, io_bind. rewrite print_ok by exact Hpr. unfold try_except.
  destruct (try_body E _ _) as [[[]|[n|e]] s1]; try reflexivity.
  unfold handler, mbind, io_bind, sys_exit, raise.
  destruct (print E _ s1) as [[[]|e'] s2]; reflexivity.
Qed.

(** What a run with a valid name prints: nothing, or the diagnostic of
    the collision check for a target that exists, or the progress line
    first. *)
Lemma main_valid_output name is_global fs :
  valid_name name = true ->
  let sp := skill_path E name is_global in
  let p := main E name is_global fs in
  output p = []
  \/ (output p = [Spec.already_exists_line sp]
      /\ present fs (resolve E sp) = true)
  \/ (exists rest, output p = Spec.creating_line name sp :: rest).
Proof.
  intros Hv sp p. subst p.
  destruct (stat_error E (resolve E sp)) as [k|] eqn:Hst.
  { left. now rewrite (main_unanswered E name is_global fs k) by assumption. }
  destruct (present fs (resolve E sp)) eqn:Hl.
  { rewrite main_exists; [|exact Hv|exact Hst|exact Hl].
    fold sp. destruct (stdout_error E _); [now left|]. right. left. eauto. }
  destruct (main_fresh E name is_global fs Hv Hst Hl)
    as [(e & _ & Hp)|(fs1 & Ha & _ & [(e & Hp)|[(e & Hp)|[(e & w & _ & Hp)|[(e & d & Hp)|H]]]])];
    try destruct H as (_ & _ & _ & _ & Hp); rewrite Hp; cbn [output]; eauto.
Qed.


(** The file cannot be opened. *)
Lemma write_text_refused p c s :
  creatable E (resolve E p) = false ->
  exists k, Os.write_text E p c s = (Raise (Exception (OSError k (Some (fspath p)))), s).
Proof.
  unfold Os.write_text, Os.create_entry, creatable. intros Hc.
  assert (Hd : denied E (resolve E p) = true
               \/ denied E (resolve E p) = false /\ failing E (resolve E p) = true).
  { destruct (denied E (resolve E p)); [now left|]. right.
    destruct (failing E (resolve E p)); [now split|discriminate]. }
  destruct Hd as [->|[-> ->]];
    destruct (lookup_path (files s) (resolve E p)) as [[|c'|]|]; eauto;
    destruct (lookup_path (files s) (removelast (resolve E p))) as [[|d|]|]; eauto.
Qed.

(** The file is opened, and the write fails. *)
Lemma write_text_fails p c s e w :
  lookup_path (files s) (removelast (resolve E p)) = Some Dir ->
  file_ok E (files s) (resolve E p) = true ->
  write_error E (resolve E p) c = Some (e, w) ->
  Os.write_text E p c s =
    (Raise (Exception e),
     {| files := <[resolve E p := File w]> (files s); stdout := stdout s |}).
Proof.
  unfold file_ok, Os.write_text, Os.create_entry. intros Hpar Hq ->.
  destruct (lookup_path (files s) (resolve E p)) as [[|c'|]|]; try discriminate;
    rewrite Hpar; apply creatable_true in Hq as [-> ->]; reflexivity.
Qed.

(** With a valid name, a free target, the progress line printed and a
    clear way for the three directories, the run gets to the write of
    [SKILL.md] with the four directories made; when the write raises, so
    does the run. *)
Lemma main_reaches_write name is_global fs :
  valid_name name = true ->
  lookup_path fs (resolve E (skill_path E name is_global)) = None ->
  printable E (Spec.creating_line name (skill_path E name is_global)) = true ->
  clear_to E fs (skill_path E name is_global / py "scripts") = true ->
  clear_to E fs (skill_path E name is_global / py "references") = true ->
  clear_to E fs (skill_path E name is_global / py "assets") = true ->
  let sp := skill_path E name is_global in
  exists fs1,
    adds_dirs (on_the_way (resolve E sp)) fs fs1
    /\ lookup_path fs1 (resolve E sp) = Some Dir
    /\ lookup_path fs1 (resolve E sp ++ [py "scripts"]) = Some Dir
    /\ lookup_path fs1 (resolve E sp ++ [py "references"]) = Some Dir
    /\ lookup_path fs1 (resolve E sp ++ [py "assets"]) = Some Dir
    /\ forall e s2,
        Os.write_text E (sp / py "SKILL.md") (skill_md_content name)
          {| files := fs1; stdout := [Spec.creating_line name sp] |}
        = (Raise (Exception e), s2) ->
        main E name is_global fs =
          {| exit_status := 1; output := stdout s2; traceback := Some e; disk := files s2 |}.
Proof.
  intros Hv Hno Hpr C1 C2 C3 sp.
  pose proof (clear_to_answered _ _ _ C1) as Hst.
  set (s0 := {| files := fs; stdout := [] ++ [Spec.creating_line name sp] |}).
  destruct (try_body_ok E sp s0 C1 C2 C3) as (s1 & H1 & Hsp).
  pose proof H1 as H1'.
  apply try_body_spec in H1' as (Ho1 & Ha1 & Hd1 & _).
  destruct (Hd1 eq_refl) as (Hs & Hr & Has).
  exists (files s1). repeat (split; [assumption|]).
  intros e s2 Hw. unfold main.
  rewrite create_skill_fresh by assumption. cbv zeta. cbn [files stdout].
  fold sp s0. rewrite H1.
  replace s1 with {| files := files s1; stdout := [Spec.creating_line name sp] |}
    by (destruct s1; cbn in *; now subst).
  now rewrite Hw.
Qed.

(** The descriptor is not on the way to any of the directories. *)
Lemma descriptor_off_the_way (sp : list str) : ~ on_the_way sp (sp ++ [py "SKILL.md"]).
Proof.
  intros [Hp|[Hp|Hp]]; apply prefix_app_inv in Hp; destruct Hp as [k Hk];
    simpl in Hk; discriminate.
Qed.

(** A valid name whose target is there: the run stops with status 1 and
    touches nothing; it reports the collision when the system answers the
    check and standard output takes the diagnostic. *)
Lemma main_collision name is_global fs :
  valid_name name = true ->
  present fs (resolve E (skill_path E name is_global)) = true ->
  let sp := skill_path E name is_global in
  let p := main E name is_global fs in
  exit_status p = 1%Z
  /\ disk p = fs
  /\ (stat_error E (resolve E sp) = None ->
      stdout_error E (Spec.already_exists_line sp) = None ->
      Spec.AlreadyExists sp p).
Proof.
  intros Hv Hex sp p. subst p.
  destruct (stat_error E (resolve E sp)) as [k|] eqn:Hst.
  { rewrite (main_unanswered E name is_global fs k) by assumption.
    repeat split; discriminate. }
  rewrite main_exists by assumption. fold sp.
  destruct (stdout_error E _) as [e|]; repeat split; discriminate.
Qed.

(** A cooperative system answers the collision check and prints its
    diagnostic. *)
Lemma cooperative_collision_check name is_global fs :
  cooperative E fs name is_global = true ->
  stat_error E (resolve E (skill_path E name is_global)) = None
  /\ stdout_error E (Spec.already_exists_line (skill_path E name is_global)) = None.
Proof.
  unfold cooperative, hears. cbv zeta. rewrite !andb_true_iff.
  intros [[[[[C1 _] _] _] _] [[Hx _] _]]. split.
  - exact (clear_to_answered _ _ _ C1).
  - now apply printable_None.
Qed.
End Outcomes.

(** * The claims *)

Section Claims.
Context {U : UnicodeData}.
Variable E : environ.

Local Open Scope path_scope.

(** C1 (as amended).  Every name made only of lowercase ASCII letters,
    digits and hyphens that contains at least one lowercase letter passes
    the validation step: [create_skill] does not fail with [InvalidName],
    whatever the scope and the file system. *)
Theorem C1_names_with_a_letter_pass name is_global fs :
  forallb name_char name = true ->
  existsb Ascii7.is_lower name = true ->
  valid_name name = true
  /\ ~ Spec.InvalidName name (main E name is_global fs).
Proof.
  intros Hall Hlow.
  pose proof (name_chars_valid name Hall Hlow) as Hv.
  split; [exact Hv|]. intros (_ & Ho & _).
  destruct (main_valid_output E name is_global fs Hv) as [Hp|[[Hp _]|[rest Hp]]];
    rewrite Hp in Ho.
  - discriminate Ho.
  - apply first_line_eq in Ho. revert Ho. apply exists_not_invalid.
  - apply first_line_eq in Ho. revert Ho. apply creating_not_invalid.
Qed.

(** C2.  For a valid name, a successful run leaves under the base path
    exactly the layout of section 6: the skill directory with its
    [scripts], [references] and [assets] directories and the file
    [SKILL.md], whose content is the template with the name in the header
    and the derived title in the heading.  Every other entry below the
    base path is as it was; so when nothing was there before, these four
    directories and this one file are all there is. *)
Theorem C2_layout_on_success name is_global fs :
  valid_name name = true ->
  Spec.Success (main E name is_global fs) ->
  let p := main E name is_global fs in
  let base := resolve E (base_path E is_global) in
  let made :=
    Spec.layout (base ++ [name])
      (Spec.text (Spec.SKILL_md name (PyStr.title (PyStr.replace hyphen [space] name)))) in
  (forall q n, In (q, n) made -> lookup_path (disk p) q = Some n)
  /\ (forall q, below base q -> ~ In q (map fst made) ->
      lookup_path (disk p) q = lookup_path fs q)
  /\ ((forall q, below base q -> lookup_path fs q = None) ->
      forall q, below base q -> (is_Some (lookup_path (disk p) q) <-> In q (map fst made))).
Proof.
  intros _ Hs p base made.
  destruct (main_success E name is_global fs Hs)
    as (_ & _ & fs1 & Ha & Hd & Hd1 & Hd2 & Hd3 & Hp).
  rewrite resolve_skill_path in *. fold base in Ha, Hd, Hd1, Hd2, Hd3, Hp.
  assert (Hmade : forall q n, In (q, n) made -> lookup_path (disk p) q = Some n).
  { intros q n Hin. subst p. rewrite Hp. cbn [disk].
    destruct Hin as [Heq|[Heq|[Heq|[Heq|[Heq|[]]]]]]; injection Heq as <- <-.
    - rewrite lookup_path_insert_ne; [exact Hd|apply snoc_neq].
    - rewrite lookup_path_insert_ne; [exact Hd1|].
      intros H. apply snoc_inj in H. discriminate H.
    - rewrite lookup_path_insert_ne; [exact Hd2|].
      intros H. apply snoc_inj in H. discriminate H.
    - rewrite lookup_path_insert_ne; [exact Hd3|].
      intros H. apply snoc_inj in H. discriminate H.
    - rewrite <- skill_md_content_template. apply lookup_path_insert_eq.
      intros H. now apply app_eq_nil in H as [_ H]. }
  assert (Hrest : forall q, below base q -> ~ In q (map fst made) ->
            lookup_path (disk p) q = lookup_path fs q).
  { intros q Hb Hout. subst p. rewrite Hp. cbn [disk].
    rewrite lookup_path_insert_ne by (intros <-; apply Hout; simpl; tauto).
    destruct (Ha q) as [e|(_ & _ & Hw)]; [exact e|].
    exfalso. apply Hout.
    destruct (on_the_way_below base name q Hb Hw) as [->|[->|[->| ->]]]; simpl; tauto. }
  split; [exact Hmade|]. split; [exact Hrest|].
  intros Hempty q Hb. split.
  - intros Hq. destruct (in_dec (fun a b : list str => decide (a = b)) q (map fst made))
      as [Hin|Hout]; [exact Hin|].
    rewrite (Hrest q Hb Hout), (Hempty q Hb) in Hq. now destruct Hq.
  - intros Hin. apply in_map_iff in Hin as ([q' n] & <- & Hin).
    cbn [fst]. rewrite (Hmade _ _ Hin). eauto.
Qed.

(** C3.  For a valid name the global skill path is
    [<home>/.config/opencode/skill/<name>] and the local one is
    [<cwd>/.opencode/skill/<name>]; the file system is not searched, the
    script works at exactly that location: a run fails with
    [AlreadyExists] only when a directory or a file is at that location,
    and does so whenever one is there, the system answers the check and
    standard output takes the diagnostic; a successful run found that
    location free and leaves the skill directory there. *)
Theorem C3_path_resolution name :
  valid_name name = true ->
  resolve E (skill_path E name true)
    = home E ++ [py ".config"; py "opencode"; py "skill"; name]
  /\ resolve E (skill_path E name false)
    = cwd E ++ [py ".opencode"; py "skill"; name]
  /\ forall is_global fs,
      let sp := skill_path E name is_global in
      let p := main E name is_global fs in
      (Spec.AlreadyExists sp p -> present fs (resolve E sp) = true)
      /\ (present fs (resolve E sp) = true ->
          stat_error E (resolve E sp) = None ->
          stdout_error E (Spec.already_exists_line sp) = None ->
          Spec.AlreadyExists sp p)
      /\ (Spec.Success p ->
          lookup_path fs (resolve E sp) = None
          /\ lookup_path (disk p) (resolve E sp) = Some Dir).
Proof.
  intros Hv. split; [|split].
  - unfold resolve, skill_path, base_path, truediv, Path_home. simpl.
    now rewrite <- !app_assoc.
  - reflexivity.
  - intros is_global fs sp p. split; [|split].
    + intros (_ & Ho & _). subst p.
      destruct (main_valid_output E name is_global fs Hv) as [Hp|[[_ Hex]|[rest Hp]]];
        [|exact Hex|]; rewrite Hp in Ho.
      * discriminate Ho.
      * apply first_line_eq in Ho. now apply creating_not_exists in Ho.
    + intros Hex Hst Hpr. now apply (main_collision E name is_global fs Hv Hex).
    + intros Hs. split.
      * now apply (main_success E name is_global fs Hs).
      * now apply success_directory.
Qed.


(** C5, what the script does when the write of [SKILL.md] fails.  Nothing
    catches the exception of [open] or of the write.  Take a valid name,
    a free skill path, the progress line printed and the three
    directories made.  When the system does not let [SKILL.md] be opened,
    the run ends with the [OSError] on that file: status 1 after the
    traceback, standard output holds the progress line only, without any
    diagnostic, and [SKILL.md] is as it was.  When the file can be opened
    and the write fails, the run ends with the exception of the write in
    the same way, and [SKILL.md] stays with what reached it.  The skill
    directory is there in both cases. *)
Theorem C5_write_failure_escapes name is_global fs :
  valid_name name = true ->
  lookup_path fs (resolve E (skill_path E name is_global)) = None ->
  printable E (Spec.creating_line name (skill_path E name is_global)) = true ->
  clear_to E fs (skill_path E name is_global / py "scripts") = true ->
  clear_to E fs (skill_path E name is_global / py "references") = true ->
  clear_to E fs (skill_path E name is_global / py "assets") = true ->
  let sp := skill_path E name is_global in
  let md := resolve E sp ++ [py "SKILL.md"] in
  let p := main E name is_global fs in
  (creatable E md = false ->
   exit_status p = 1%Z
   /\ output p = [Spec.creating_line name sp]
   /\ (exists k, traceback p = Some (OSError k (Some (fspath (sp / py "SKILL.md")))))
   /\ lookup_path (disk p) md = lookup_path fs md
   /\ lookup_path (disk p) (resolve E sp) = Some Dir)
  /\ (forall e w,
      file_ok E fs md = true ->
      write_error E md (skill_md_content name) = Some (e, w) ->
      exit_status p = 1%Z
      /\ output p = [Spec.creating_line name sp]
      /\ traceback p = Some e
      /\ lookup_path (disk p) md = Some (File w)
      /\ lookup_path (disk p) (resolve E sp) = Some Dir).
Proof.
  intros Hv Hno Hpr C1 C2 C3 sp md p.
  destruct (main_reaches_write E name is_global fs Hv Hno Hpr C1 C2 C3)
    as (fs1 & Ha & Hsp & _ & _ & _ & Hrun).
  fold sp in Ha, Hsp, Hrun.
  assert (Hmd : lookup_path fs1 md = lookup_path fs md)
    by (apply (adds_dirs_frame _ _ _ _ Ha), descriptor_off_the_way).
  split.
  - intros Hden.
    destruct (write_text_refused E (sp / py "SKILL.md") (skill_md_content name)
                {| files := fs1; stdout := [Spec.creating_line name sp] |}) as [k Hw].
    { rewrite resolve_truediv. exact Hden. }
    subst p. rewrite (Hrun _ _ Hw). cbn [exit_status output traceback disk files stdout].
    repeat split; eauto.
  - intros e w Hok Hwe.
    assert (Hw : Os.write_text E (sp / py "SKILL.md") (skill_md_content name)
                   {| files := fs1; stdout := [Spec.creating_line name sp] |}
                 = (Raise (Exception e),
                    {| files := <[md := File w]> fs1;
                       stdout := [Spec.creating_line name sp] |})).
    { rewrite (write_text_fails E _ _ _ e w); rewrite ?resolve_truediv; cbn [files stdout].
      - reflexivity.
      - rewrite removelast_last. exact Hsp.
      - unfold file_ok in *. fold md. now rewrite Hmd.
      - exact Hwe. }
    subst p. rewrite (Hrun _ _ Hw). cbn [exit_status output traceback disk files stdout].
    repeat (split; [reflexivity|]). split.
    + apply lookup_path_insert_eq. subst md. intros H. now apply app_eq_nil in H as [_ H].
    + rewrite lookup_path_insert_ne; [exact Hsp|]. subst md. apply snoc_neq.
Qed.

(** C6 (as amended).  For a valid name of ASCII characters the title is
    the name with its hyphens replaced by spaces and with every letter
    uppercased that does not directly follow a letter (the first letter of
    a word, and also a letter after a digit), the rest unchanged.  For
    ["pdf-export"] the document has the line [name: pdf-export] and the
    heading [# Pdf Export], and a successful local run writes it to
    [.opencode/skill/pdf-export/SKILL.md] under the working directory. *)
Theorem C6_title name :
  valid_name name = true ->
  forallb (fun c => c <? 128) name = true ->
  PyStr.title (PyStr.replace hyphen [space] name)
    = upper_after_nonletter false (PyStr.replace hyphen [space] name)
  /\ skill_md_content (py "pdf-export")
    = Spec.text (Spec.SKILL_md (py "pdf-export") (py "Pdf Export"))
  /\ forall fs,
      Spec.Success (main E (py "pdf-export") false fs) ->
      lookup_path (disk (main E (py "pdf-export") false fs))
        (cwd E ++ [py ".opencode"; py "skill"; py "pdf-export"; py "SKILL.md"])
      = Some (File (Spec.text (Spec.SKILL_md (py "pdf-export") (py "Pdf Export")))).
Proof.
  intros Hv Ha. split; [now apply title_of_valid_ascii|].
  split; [apply pdf_export_document|].
  intros fs Hs. rewrite <- pdf_export_document.
  apply (success_writes E _ _ _ Hs).
Qed.


(** C8 (as amended).  Two calls in a row with the same valid name and
    scope, starting without the skill path, on a system that lets the
    script create what is missing: the first call succeeds and the skill
    path exists afterwards; the second fails with [AlreadyExists] and
    changes nothing. *)
Theorem C8_second_call_refused name is_global fs :
  valid_name name = true ->
  lookup_path fs (resolve E (skill_path E name is_global)) = None ->
  cooperative E fs name is_global = true ->
  let first := main E name is_global fs in
  let second := main E name is_global (disk first) in
  Spec.Success first
  /\ is_Some (lookup_path (disk first) (resolve E (skill_path E name is_global)))
  /\ Spec.AlreadyExists (skill_path E name is_global) second
  /\ disk second = disk first.
Proof.
  intros Hv Hno Hco first second.
  assert (Hs : Spec.Success first) by now apply main_cooperative.
  assert (Hex : lookup_path (disk first) (resolve E (skill_path E name is_global))
                = Some Dir)
    by (subst first; now apply success_directory).
  split; [exact Hs|]. split; [rewrite Hex; eauto|].
  destruct (cooperative_collision_check E name is_global fs Hco) as [Hst Hpr].
  destruct (main_collision E name is_global (disk first) Hv) as (_ & Hd & Hae).
  { unfold present. now rewrite Hex. }
  split; [now apply Hae|exact Hd].
Qed.

End Claims.

(** C10.  The document is a function of the name alone: two successful
    runs with the same valid name write the same content to their
    [SKILL.md], whatever the scopes, the working directories, the home
    directories and the file systems. *)
Theorem C10_document_depends_on_name_only {U : UnicodeData}
    (E1 E2 : environ) (name : str) (global1 global2 : bool) (fs1 fs2 : filesystem) :
  valid_name name = true ->
  Spec.Success (main E1 name global1 fs1) ->
  Spec.Success (main E2 name global2 fs2) ->
  lookup_path (disk (main E1 name global1 fs1))
    (resolve E1 (truediv (skill_path E1 name global1) (py "SKILL.md")))
  = Some (File (skill_md_content name))
  /\ lookup_path (disk (main E2 name global2 fs2))
    (resolve E2 (truediv (skill_path E2 name global2) (py "SKILL.md")))
  = Some (File (skill_md_content name)).
Proof.
  intros _ H1 H2. split; now apply success_writes.
Qed.

(** C1, the claim as it was stated fails: ["123"] is made of permitted
    characters and is not empty once the hyphens are gone, and is rejected
    with [InvalidName]. *)
Lemma C1_digits_rejected :
  forallb name_char (py "123") = true
  /\ PyStr.replace hyphen [] (py "123") <> []
  /\ Spec.InvalidName (py "123") (main (U := ascii_data) sample_env (py "123") false sample_fs).
Proof.
  split; [reflexivity|]. split; [discriminate|].
  rewrite main_invalid by reflexivity. now repeat split.
Qed.

Lemma C1_names_with_a_letter_pass_witness :
  forallb name_char (py "pdf-export") = true
  /\ existsb Ascii7.is_lower (py "pdf-export") = true
  /\ valid_name (U := ascii_data) (py "pdf-export") = true
  /\ ~ Spec.InvalidName (py "pdf-export")
         (main (U := ascii_data) sample_env (py "pdf-export") false sample_fs).
Proof.
  split; [reflexivity|]. split; [reflexivity|].
  apply (C1_names_with_a_letter_pass (U := ascii_data)); reflexivity.
Defined.

Lemma C2_layout_on_success_witness :
  valid_name (U := ascii_data) (py "pdf-export") = true
  /\ Spec.Success (main (U := ascii_data) sample_env (py "pdf-export") false sample_fs)
  /\ lookup_path (disk (main (U := ascii_data) sample_env (py "pdf-export") false sample_fs))
       [py "tmp"; py "proj"; py ".opencode"; py "skill"; py "pdf-export"; py "SKILL.md"]
     = Some (File (Spec.text (Spec.SKILL_md (py "pdf-export") (py "Pdf Export")))).
Proof.
  assert (Hv : valid_name (U := ascii_data) (py "pdf-export") = true) by reflexivity.
  assert (Hs : Spec.Success
                 (main (U := ascii_data) sample_env (py "pdf-export") false sample_fs))
    by (vm_compute; reflexivity).
  split; [exact Hv|]. split; [exact Hs|].
  destruct (C2_layout_on_success (U := ascii_data) sample_env (py "pdf-export") false
              sample_fs Hv Hs) as (Hmade & _).
  apply Hmade. simpl. tauto.
Defined.

Lemma C3_path_resolution_witness :
  valid_name (U := ascii_data) (py "pdf-export") = true
  /\ resolve sample_env (skill_path sample_env (py "pdf-export") true)
     = [py "home"; py "user"; py ".config"; py "opencode"; py "skill"; py "pdf-export"]
  /\ resolve sample_env (skill_path sample_env (py "pdf-export") false)
     = [py "tmp"; py "proj"; py ".opencode"; py "skill"; py "pdf-export"].
Proof.
  assert (Hv : valid_name (U := ascii_data) (py "pdf-export") = true) by reflexivity.
  destruct (C3_path_resolution (U := ascii_data) sample_env (py "pdf-export") Hv)
    as (Hg & Hl & _).
  split; [exact Hv|]. split; [exact Hg|exact Hl].
Defined.



Lemma C5_write_failure_escapes_witness :
  (exit_status (main (U := ascii_data) refusing_env (py "pdf-export") false sample_fs) = 1%Z
   /\ output (main (U := ascii_data) refusing_env (py "pdf-export") false sample_fs)
      = [py "Creating skill 'pdf-export' at .opencode/skill/pdf-export..."]
   /\ exists k,
        traceback (main (U := ascii_data) refusing_env (py "pdf-export") false sample_fs)
        = Some (OSError k (Some (py ".opencode/skill/pdf-export/SKILL.md"))))
  /\ (exit_status (main (U := ascii_data) full_disk_env (py "pdf-export") false sample_fs) = 1%Z
      /\ output (main (U := ascii_data) full_disk_env (py "pdf-export") false sample_fs)
         = [py "Creating skill 'pdf-export' at .opencode/skill/pdf-export..."]
      /\ traceback (main (U := ascii_data) full_disk_env (py "pdf-export") false sample_fs)
         = Some (OSError OtherOSError None)
      /\ lookup_path
           (disk (main (U := ascii_data) full_disk_env (py "pdf-export") false sample_fs))
           [py "tmp"; py "proj"; py ".opencode"; py "skill"; py "pdf-export"; py "SKILL.md"]
         = Some (File [])).
Proof.
  split.
  - destruct (C5_write_failure_escapes (U := ascii_data) refusing_env
                (py "pdf-export") false sample_fs) as [Hopen _];
      try (vm_compute; reflexivity).
    destruct Hopen as (He & Ho & Ht & _); [vm_compute; reflexivity|].
    split; [exact He|]. split; [exact Ho|exact Ht].
  - destruct (C5_write_failure_escapes (U := ascii_data) full_disk_env
                (py "pdf-export") false sample_fs) as [_ Hwrite];
      try (vm_compute; reflexivity).
    destruct (Hwrite (OSError OtherOSError None) []) as (He & Ho & Ht & Hmd & _);
      try (vm_compute; reflexivity).
    split; [exact He|]. split; [exact Ho|]. split; [exact Ht|exact Hmd].
Defined.

(** C6, the claim as it was stated fails: ["a1b"] is a valid name and one
    word, so its title would be ["A1b"], the first letter uppercased and the
    rest unchanged; [str.title] also uppercases the letter after the digit,
    and the heading written is [# A1B]. *)
Lemma C6_letter_after_digit :
  valid_name (U := ascii_data) (py "a1b") = true
  /\ Spec.title_of_words (U := ascii_data) (py "a1b") = py "A1b"
  /\ PyStr.title (U := ascii_data) (PyStr.replace hyphen [space] (py "a1b")) = py "A1B"
  /\ PyStr.title (U := ascii_data) (PyStr.replace hyphen [space] (py "a1b"))
     <> Spec.title_of_words (U := ascii_data) (py "a1b")
  /\ skill_md_content (U := ascii_data) (py "a1b")
     = Spec.text (Spec.SKILL_md (py "a1b") (py "A1B")).
Proof.
  split; [reflexivity|]. split; [reflexivity|]. split; [reflexivity|].
  split; [discriminate|reflexivity].
Qed.

Lemma C6_title_witness :
  valid_name (U := ascii_data) (py "pdf-export") = true
  /\ forallb (fun c => c <? 128) (py "pdf-export") = true
  /\ PyStr.title (U := ascii_data) (PyStr.replace hyphen [space] (py "pdf-export"))
     = py "Pdf Export".
Proof.
  assert (Hv : valid_name (U := ascii_data) (py "pdf-export") = true) by reflexivity.
  assert (Ha : forallb (fun c => c <? 128) (py "pdf-export") = true) by reflexivity.
  destruct (C6_title (U := ascii_data) sample_env (py "pdf-export") Hv Ha) as (Ht & _).
  split; [exact Hv|]. split; [exact Ha|]. rewrite Ht. reflexivity.
Defined.



(** C8, the claim as it was stated fails: the skill path of the valid
    name ["dup"] does not exist, and the first call does not succeed, in
    a project where [.opencode/skill] is a file (the directories cannot
    be made), on a system that refuses to create [assets], on a full disk
    (the write of [SKILL.md] fails), and in the global scope of a user
    whose home directory has a name that standard output cannot encode
    (the progress line cannot be printed). *)
Lemma C8_first_call_fails :
  valid_name (U := ascii_data) (py "dup") = true
  /\ (lookup_path blocked_fs (resolve sample_env (skill_path sample_env (py "dup") false))
      = None
      /\ output (main (U := ascii_data) sample_env (py "dup") false blocked_fs)
         = [py "Creating skill 'dup' at .opencode/skill/dup...";
            py "Error creating directories: [Errno 20] Not a directory: '.opencode/skill/dup'"]
      /\ ~ Spec.Success (main (U := ascii_data) sample_env (py "dup") false blocked_fs))
  /\ (lookup_path sample_fs
        (resolve assets_refusing_env (skill_path assets_refusing_env (py "dup") false)) = None
      /\ ~ Spec.Success (main (U := ascii_data) assets_refusing_env (py "dup") false sample_fs))
  /\ (lookup_path sample_fs
        (resolve full_disk_env (skill_path full_disk_env (py "dup") false)) = None
      /\ ~ Spec.Success (main (U := ascii_data) full_disk_env (py "dup") false sample_fs))
  /\ (lookup_path sample_fs
        (resolve latin_home_env (skill_path latin_home_env (py "dup") true)) = None
      /\ ~ Spec.Success (main (U := ascii_data) latin_home_env (py "dup") true sample_fs)).
Proof.
  split; [reflexivity|]. unfold Spec.Success.
  split; [|split; [|split]]; (split; [vm_compute; reflexivity|]).
  - split; [vm_compute; reflexivity|]. vm_compute. discriminate.
  - vm_compute. discriminate.
  - vm_compute. discriminate.
  - vm_compute. discriminate.
Qed.

Lemma C8_second_call_refused_witness :
  valid_name (U := ascii_data) (py "dup") = true
  /\ lookup_path sample_fs (resolve sample_env (skill_path sample_env (py "dup") false)) = None
  /\ cooperative sample_env sample_fs (py "dup") false = true
  /\ Spec.Success (main (U := ascii_data) sample_env (py "dup") false sample_fs)
  /\ Spec.AlreadyExists (skill_path sample_env (py "dup") false)
       (main (U := ascii_data) sample_env (py "dup") false
          (disk (main (U := ascii_data) sample_env (py "dup") false sample_fs))).
Proof.
  assert (Hv : valid_name (U := ascii_data) (py "dup") = true) by reflexivity.
  assert (Hno : lookup_path sample_fs
                  (resolve sample_env (skill_path sample_env (py "dup") false)) = None)
    by (vm_compute; reflexivity).
  assert (Hco : cooperative sample_env sample_fs (py "dup") false = true)
    by (vm_compute; reflexivity).
  destruct (C8_second_call_refused (U := ascii_data) sample_env _ _ _ Hv Hno Hco)
    as (Hs & _ & Hsecond & _).
  split; [exact Hv|]. split; [exact Hno|]. split; [exact Hco|].
  split; [exact Hs|exact Hsecond].
Defined.



Lemma C10_document_depends_on_name_only_witness :
  valid_name (U := ascii_data) (py "pdf-export") = true
  /\ Spec.Success (main (U := ascii_data) sample_env (py "pdf-export") false sample_fs)
  /\ Spec.Success (main (U := ascii_data) other_env (py "pdf-export") true taken_fs)
  /\ lookup_path (disk (main (U := ascii_data) sample_env (py "pdf-export") false sample_fs))
       [py "tmp"; py "proj"; py ".opencode"; py "skill"; py "pdf-export"; py "SKILL.md"]
     = Some (File (skill_md_content (U := ascii_data) (py "pdf-export")))
  /\ lookup_path (disk (main (U := ascii_data) other_env (py "pdf-export") true taken_fs))
       [py "Users"; py "me"; py ".config"; py "opencode"; py "skill"; py "pdf-export";
        py "SKILL.md"]
     = Some (File (skill_md_content (U := ascii_data) (py "pdf-export"))).
Proof.
  assert (Hv : valid_name (U := ascii_data) (py "pdf-export") = true) by reflexivity.
  assert (H1 : Spec.Success
                 (main (U := ascii_data) sample_env (py "pdf-export") false sample_fs))
    by (vm_compute; reflexivity).
  assert (H2 : Spec.Success
                 (main (U := ascii_data) other_env (py "pdf-export") true taken_fs))
    by (vm_compute; reflexivity).
  split; [exact Hv|]. split; [exact H1|]. split; [exact H2|].
  exact (C10_document_depends_on_name_only (U := ascii_data)
           sample_env other_env (py "pdf-export") false true sample_fs taken_fs Hv H1 H2).
Defined.

(** * Further properties of the script *)

(** ** More on the validation step *)

Section MoreValidation.
Context {U : UnicodeData}.
Variable E : environ.



Lemma islower_loop_has_lower s : forall cased,
  PyStr.islower_loop cased s = true -> cased = true \/ existsb Py_UNICODE_ISLOWER s = true.
Proof.
  induction s as [|c s IH]; intros cased H; simpl in *; [now left|].
  destruct (Py_UNICODE_ISUPPER c || Py_UNICODE_ISTITLE c); [discriminate|].
  destruct (IH _ H) as [Hc|Hs].
  - apply orb_true_iff in Hc as [->|Hc]; [now left|]. right. now rewrite Hc.
  - right. rewrite Hs. apply orb_true_r.
Qed.

Lemma ascii_class c :
  c < 128 -> c = hyphen \/ Py_UNICODE_ISALNUM c = true ->
  Py_UNICODE_ISUPPER c = false -> name_char c = true.
Proof.
  intros Hc Hal Hup. rewrite isupper_ascii in Hup by exact Hc.
  destruct Hal as [->|Hal]; [reflexivity|].
  rewrite isalnum_ascii in Hal by exact Hc.
  unfold name_char, Ascii7.is_alnum in *. rewrite Hup in Hal.
  rewrite orb_false_r in Hal. now rewrite Hal.
Qed.

Lemma existsb_ext_in (f g : N -> bool) (s : str) :
  (forall c, In c s -> f c = g c) -> existsb f s = existsb g s.
Proof.
  induction s as [|c s IH]; intros H; [reflexivity|]. simpl.
  rewrite (H c) by now left. rewrite IH; [reflexivity|].
  intros d Hd. apply H. now right.
Qed.

(** X2.  An ASCII name passes the validation step exactly when it is made
    of lowercase letters, digits and hyphens and has a lowercase letter in
    it. *)
Theorem X2_valid_ascii_names name :
  forallb (fun c => c <? 128) name = true ->
  valid_name name = forallb name_char name && existsb Ascii7.is_lower name.
Proof.
  intros Ha. rewrite forallb_forall in Ha.
  assert (Hlt : forall c, In c name -> c < 128)
    by (intros c Hc; apply N.ltb_lt, Ha, Hc).
  destruct (valid_name name) eqn:Hv.
  - symmetry. apply andb_true_iff.
    pose proof Hv as Hl. unfold valid_name in Hl. apply andb_true_iff in Hl as [_ Hl].
    split.
    + apply forallb_forall. intros c Hc. apply ascii_class.
      * now apply Hlt.
      * now apply (valid_name_chars name).
      * eapply islower_loop_no_upper; eauto.
    + destruct (islower_loop_has_lower _ _ Hl) as [?|Hex]; [discriminate|].
      rewrite <- Hex. apply existsb_ext_in. intros c Hc.
      symmetry. now apply islower_ascii, Hlt.
  - destruct (forallb name_char name) eqn:Hall; [|reflexivity].
    destruct (existsb Ascii7.is_lower name) eqn:Hlow; [|reflexivity].
    rewrite name_chars_valid in Hv by assumption. discriminate.
Qed.

(** X3.  A name that passes the validation step is one path component: it
    is not empty, has no slash in it and is neither [.] nor [..]; so the
    skill directory lies directly inside the base directory, whatever the
    name. *)
Theorem X3_valid_name_stays_inside name is_global :
  valid_name name = true ->
  name <> [] /\ ~ In slash name /\ name <> py "." /\ name <> py ".."
  /\ removelast (resolve E (skill_path E name is_global))
     = resolve E (base_path E is_global).
Proof.
  intros Hv. destruct (valid_name_component name Hv) as (H1 & H2 & H3 & H4).
  repeat (split; [assumption|]).
  rewrite resolve_skill_path. apply removelast_last.
Qed.
End MoreValidation.

(** ** When the system does not cooperate *)

Section Failures.
Context {U : UnicodeData}.
Variable E : environ.

Local Open Scope path_scope.

Lemma rev_parts_nonempty (p : pypath) : parts p <> [] -> rev (parts p) <> [].
Proof.
  intros Hp Hr. apply Hp. rewrite <- (rev_involutive (parts p)), Hr. reflexivity.
Qed.

Lemma rev_truediv p seg : rev (parts (p / seg)) = seg :: rev (parts p).
Proof. unfold truediv. cbn [parts]. now rewrite rev_app_distr. Qed.

Lemma truediv_eta p seg :
  {| anchored := anchored p; parts := rev (seg :: rev (parts p)) |} = p / seg.
Proof. unfold truediv. cbn [rev]. now rewrite rev_involutive. Qed.

Lemma head_eta (p : pypath) :
  {| anchored := anchored p; parts := rev (rev (parts p)) |} = p.
Proof. rewrite rev_involutive. now destruct p. Qed.

(** With its head in place, [os.makedirs] is one [mkdir]. *)
Lemma makedirs_head_exists p seg s :
  parts p <> [] ->
  Os.path_exists E (files s) (resolve E p) = true ->
  Os.makedirs E (p / seg) s = Os.mkdir_exist_ok E (p / seg) s.
Proof.
  intros Hp Hex. unfold Os.makedirs. rewrite rev_truediv. cbn [anchored truediv].
  rewrite makedirs_rev_step. cbv zeta. rewrite truediv_eta, head_eta.
  destruct (rev (parts p)) eqn:Hr; [now apply rev_parts_nonempty in Hr|].
  now rewrite Hex.
Qed.

Lemma path_exists_found (fs : filesystem) (q : list str) :
  stat_error E q = None -> present fs q = true -> Os.path_exists E fs q = true.
Proof.
  unfold Os.path_exists, Os.stat, present. intros ->.
  now destruct (lookup_path fs q) as [[|c|]|].
Qed.

Lemma path_exists_absent (fs : filesystem) (q : list str) :
  lookup_path fs q = None -> Os.path_exists E fs q = false.
Proof.
  unfold Os.path_exists, Os.stat. intros ->. now destruct (stat_error E q).
Qed.

Lemma isdir_absent (fs : filesystem) (q : list str) :
  lookup_path fs q = None -> Os.isdir E fs q = false.
Proof.
  unfold Os.isdir, Os.stat. intros ->. now destruct (stat_error E q).
Qed.

(** Without its head, [os.makedirs] makes the head first. *)
Lemma makedirs_head_absent p seg s :
  parts p <> [] ->
  lookup_path (files s) (resolve E p) = None ->
  Os.makedirs E (p / seg) s =
    match Os.makedirs E p s with
    | (Val _, s1) => Os.mkdir_exist_ok E (p / seg) s1
    | (Raise (Exception (OSError FileExistsError _)), s1) =>
        Os.mkdir_exist_ok E (p / seg) s1
    | (Raise e, s1) => (Raise e, s1)
    end.
Proof.
  intros Hp Hno. unfold Os.makedirs at 1. rewrite rev_truediv. cbn [anchored truediv].
  rewrite makedirs_rev_step. cbv zeta. rewrite truediv_eta, head_eta.
  destruct (rev (parts p)) eqn:Hr; [now apply rev_parts_nonempty in Hr|].
  rewrite path_exists_absent by exact Hno.
  unfold Os.makedirs. now rewrite Hr.
Qed.

Lemma mkdir_exist_ok_refused p s :
  lookup_path (files s) (resolve E p) = None ->
  lookup_path (files s) (removelast (resolve E p)) = Some Dir ->
  denied E (resolve E p) = true ->
  Os.mkdir_exist_ok E p s
  = (Raise (Exception (OSError PermissionError (Some (fspath p)))), s).
Proof.
  intros Hq Hpar Hden.
  unfold Os.mkdir_exist_ok, Os.mkdir, Os.create_entry.
  rewrite Hq, Hpar, Hden. now rewrite isdir_absent.
Qed.

Lemma mkdir_exist_ok_under_file p s c :
  lookup_path (files s) (resolve E p) = None ->
  lookup_path (files s) (removelast (resolve E p)) = Some (File c) ->
  Os.mkdir_exist_ok E p s
  = (Raise (Exception (OSError NotADirectoryError (Some (fspath p)))), s).
Proof.
  intros Hq Hpar.
  unfold Os.mkdir_exist_ok, Os.mkdir, Os.create_entry.
  rewrite Hq, Hpar. now rewrite isdir_absent.
Qed.

(** A missing target is never reported with [FileExistsError]. *)
Lemma mkdir_exist_ok_absent p s f s' :
  lookup_path (files s) (resolve E p) = None ->
  Os.mkdir_exist_ok E p s <> (Raise (Exception (OSError FileExistsError f)), s').
Proof.
  intros Hq. unfold Os.mkdir_exist_ok, Os.mkdir, Os.create_entry.
  rewrite Hq.
  destruct (lookup_path (files s) (removelast (resolve E p))) as [[|c|]|];
    [destruct (denied E (resolve E p)); [|destruct (failing E (resolve E p))]|..];
    cbn; rewrite ?isdir_absent by exact Hq;
    discriminate.
Qed.

Lemma makedirs_rev_absent root rp : forall s f s',
  lookup_path (files s) (anchor E root ++ rev rp) = None ->
  Os.makedirs_rev E root rp s <> (Raise (Exception (OSError FileExistsError f)), s').
Proof.
  induction rp as [|x rh IH]; intros s f s' Hno.
  - now apply mkdir_exist_ok_absent.
  - rewrite makedirs_rev_step. cbv zeta. destruct rh as [|y rh'].
    + now apply mkdir_exist_ok_absent.
    + destruct (Os.path_exists _ _ _) eqn:Hex; [now apply mkdir_exist_ok_absent|].
      destruct (Os.makedirs_rev E root (y :: rh') s) as [r1 s1] eqn:H1.
      assert (Hkeep : lookup_path (files s1) (anchor E root ++ rev (x :: y :: rh')) = None).
      { apply makedirs_rev_spec in H1 as (_ & Hg & _).
        rewrite (grows_to_frame _ _ _ _ Hg); [exact Hno|].
        simpl. rewrite app_assoc. apply not_prefix_snoc. }
      destruct r1 as [[]|[n|[k g|]]]; try discriminate.
      * now apply mkdir_exist_ok_absent.
      * destruct k; try discriminate. now apply mkdir_exist_ok_absent.
Qed.

(** When [os.makedirs] returns, it has made the missing parent of its
    target. *)
Lemma makedirs_makes_parent p seg s s1 :
  parts p <> [] ->
  lookup_path (files s) (resolve E p) = None ->
  Os.makedirs E (p / seg) s = (Val tt, s1) ->
  lookup_path (files s1) (resolve E p) = Some Dir.
Proof.
  intros Hp Hno H1. rewrite makedirs_head_absent in H1 by assumption.
  destruct (Os.makedirs E p s) as [r0 s0] eqn:H0.
  destruct r0 as [[]|[n|[k f|]]].
  - apply makedirs_spec in H0 as (_ & _ & Hd & _).
    apply mkdir_exist_ok_spec in H1 as (_ & Hg & _).
    eapply adds_dirs_keeps; [exact Hg|]. now apply Hd.
  - discriminate.
  - destruct k; try discriminate.
    exfalso. revert H0. apply makedirs_rev_absent.
    unfold resolve in Hno. now rewrite rev_involutive.
  - discriminate.
Qed.

(** A missing skill directory is a directory once the three calls of
    [os.makedirs] have returned. *)
Lemma try_body_makes_skill_dir sp s s' :
  parts sp <> [] ->
  lookup_path (files s) (resolve E sp) = None ->
  try_body E sp s = (Val tt, s') ->
  lookup_path (files s') (resolve E sp) = Some Dir.
Proof.
  intros Hp Hno. unfold try_body, mbind, io_bind.
  destruct (Os.makedirs E (sp / py "scripts") s) as [r1 s1] eqn:H1.
  destruct r1 as [[]|e1]; [|discriminate].
  pose proof (makedirs_makes_parent _ _ _ _ Hp Hno H1) as Hsp.
  destruct (Os.makedirs E (sp / py "references") s1) as [r2 s2] eqn:H2.
  apply makedirs_spec in H2 as (_ & Hg2 & _).
  destruct r2 as [[]|e2]; [|discriminate].
  intros H3. apply makedirs_spec in H3 as (_ & Hg3 & _).
  eapply adds_dirs_keeps; [exact Hg3|]. eapply adds_dirs_keeps; [exact Hg2|exact Hsp].
Qed.

Lemma base_path_parts is_global : parts (base_path E is_global) <> [].
Proof.
  destruct is_global; cbn; [|discriminate].
  intros H. now apply app_eq_nil in H as [_ H].
Qed.

Lemma skill_path_parts name is_global : parts (skill_path E name is_global) <> [].
Proof.
  unfold skill_path, truediv. cbn [parts]. intros H. now apply app_eq_nil in H as [_ H].
Qed.

(** X4.  When the base directory ([.opencode/skill], or
    [~/.config/opencode/skill]) is a file, the system answers when asked
    about it and about the skill path, and standard output takes the
    lines, a run with a valid name is caught by the [except] branch: the
    progress line and one [Error creating directories] line with the
    [NotADirectoryError] on the skill path are printed, the status is 1
    without any traceback, and the file system is as it was. *)
Theorem X4_file_in_the_way name is_global fs c :
  valid_name name = true ->
  lookup_path fs (resolve E (base_path E is_global)) = Some (File c) ->
  lookup_path fs (resolve E (skill_path E name is_global)) = None ->
  stat_error E (resolve E (base_path E is_global)) = None ->
  stat_error E (resolve E (skill_path E name is_global)) = None ->
  printable E (Spec.creating_line name (skill_path E name is_global)) = true ->
  printable E (directory_error_line E NotADirectoryError
                 (fspath (skill_path E name is_global))) = true ->
  main E name is_global fs =
    {| exit_status := 1;
       output := [Spec.creating_line name (skill_path E name is_global);
                  directory_error_line E NotADirectoryError
                    (fspath (skill_path E name is_global))];
       traceback := None;
       disk := fs |}.
Proof.
  intros Hv Hbase Hno Hsb Hst Hp1 Hp2. unfold main.
  rewrite create_skill_fresh by assumption. cbv zeta. cbn [files stdout].
  unfold try_body, mbind, io_bind.
  rewrite makedirs_head_absent by (try apply skill_path_parts; exact Hno).
  unfold skill_path at 1.
  rewrite makedirs_head_exists
    by (first [apply base_path_parts
              |apply path_exists_found;
               [exact Hsb|unfold present; cbn [files]; now rewrite Hbase]]).
  fold (skill_path E name is_global).
  rewrite (mkdir_exist_ok_under_file _ _ c).
  - unfold handler, mbind, io_bind. fold (directory_error_line E NotADirectoryError
                                            (fspath (skill_path E name is_global))).
    rewrite print_ok by exact Hp2. reflexivity.
  - exact Hno.
  - cbn [files]. rewrite resolve_skill_path, removelast_last. exact Hbase.
Qed.

(** X5.  Nothing is rolled back.  When the first two directories can be
    made, the system refuses [assets] and standard output takes the
    lines, the run prints the progress line and the
    [Error creating directories] line, exits with 1 without a traceback,
    and leaves the skill directory with [scripts] and [references]
    behind; [assets] is missing. *)
Theorem X5_partial_layout_stays name is_global fs :
  valid_name name = true ->
  lookup_path fs (resolve E (skill_path E name is_global)) = None ->
  clear_to E fs (skill_path E name is_global / py "scripts") = true ->
  clear_to E fs (skill_path E name is_global / py "references") = true ->
  lookup_path fs (resolve E (skill_path E name is_global) ++ [py "assets"]) = None ->
  denied E (resolve E (skill_path E name is_global) ++ [py "assets"]) = true ->
  printable E (Spec.creating_line name (skill_path E name is_global)) = true ->
  printable E (directory_error_line E PermissionError
                 (fspath (skill_path E name is_global / py "assets"))) = true ->
  let sp := skill_path E name is_global in
  let p := main E name is_global fs in
  exit_status p = 1%Z
  /\ output p = [Spec.creating_line name sp;
                 directory_error_line E PermissionError (fspath (sp / py "assets"))]
  /\ traceback p = None
  /\ lookup_path (disk p) (resolve E sp) = Some Dir
  /\ lookup_path (disk p) (resolve E sp ++ [py "scripts"]) = Some Dir
  /\ lookup_path (disk p) (resolve E sp ++ [py "references"]) = Some Dir
  /\ lookup_path (disk p) (resolve E sp ++ [py "assets"]) = None.
Proof.
  intros Hv Hno C1 C2 Hass Hden Hp1 Hp2 sp p. subst p. unfold main.
  pose proof (clear_to_answered E _ _ _ C1) as Hst.
  rewrite create_skill_fresh by assumption. cbv zeta. cbn [files stdout].
  fold sp in Hno, C1, C2, Hass, Hden, Hst, Hp1, Hp2 |- *.
  set (s0 := {| files := fs; stdout := [] ++ [Spec.creating_line name sp] |}).
  unfold try_body, mbind, io_bind.
  destruct (makedirs_ok E (sp / py "scripts") s0 C1) as [s1 H1]. rewrite H1.
  assert (Hsp : lookup_path (files s1) (resolve E sp) = Some Dir)
    by (apply (makedirs_makes_parent sp (py "scripts") s0 s1);
        [apply skill_path_parts|exact Hno|exact H1]).
  apply makedirs_spec in H1 as (Ho1 & Hg1 & Hd1 & _).
  assert (C2' : clear_to E (files s1) (sp / py "references") = true)
    by (eapply way_clear_adds; eauto).
  destruct (makedirs_ok E _ s1 C2') as [s2 H2]. rewrite H2.
  apply makedirs_spec in H2 as (Ho2 & Hg2 & Hd2 & _).
  rewrite resolve_truediv in Hg1, Hd1, Hg2, Hd2.
  assert (Hass2 : lookup_path (files s2) (resolve E sp ++ [py "assets"]) = None).
  { rewrite (grows_to_frame _ _ _ _ Hg2) by (apply resolve_child_neq; discriminate).
    rewrite (grows_to_frame _ _ _ _ Hg1) by (apply resolve_child_neq; discriminate).
    exact Hass. }
  assert (Hsp2 : lookup_path (files s2) (resolve E sp) = Some Dir)
    by (eapply adds_dirs_keeps; eauto).
  rewrite makedirs_head_exists
    by (first [apply skill_path_parts
              |apply path_exists_found; [exact Hst|unfold present; now rewrite Hsp2]]).
  rewrite mkdir_exist_ok_refused.
  - unfold handler, mbind, io_bind.
    fold (directory_error_line E PermissionError (fspath (sp / py "assets"))).
    rewrite print_ok by exact Hp2.
    cbn [exit_status output traceback disk files stdout sys_exit raise].
    rewrite Ho2, Ho1. cbn [stdout app].
    repeat (split; [reflexivity|]).
    split; [exact Hsp2|]. split; [|split; [now apply Hd2|exact Hass2]].
    eapply adds_dirs_keeps; [exact Hg2|]. now apply Hd1.
  - rewrite resolve_truediv. exact Hass2.
  - rewrite resolve_truediv, removelast_last. exact Hsp2.
  - rewrite resolve_truediv. exact Hden.
Qed.
End Failures.

(** ** What every run leaves behind *)

Section Aftermath.
Context {U : UnicodeData}.
Variable E : environ.

Local Open Scope path_scope.






(** What was there stays: the runs only add entries. *)
Lemma run_keeps_entries name is_global fs (q : list str) n :
  lookup_path fs q = Some n ->
  q <> resolve E (skill_path E name is_global) ++ [py "SKILL.md"] ->
  lookup_path (disk (main E name is_global fs)) q = Some n.
Proof.
  intros Hq Hne.
  destruct (valid_name name) eqn:Hv.
  2:{ rewrite main_invalid by exact Hv. now destruct (stdout_error E _). }
  destruct (stat_error E (resolve E (skill_path E name is_global))) as [k|] eqn:Hst.
  { now rewrite (main_unanswered E name is_global fs k) by assumption. }
  destruct (present fs (resolve E (skill_path E name is_global))) eqn:Hl.
  { rewrite main_exists; [|exact Hv|exact Hst|exact Hl].
    now destruct (stdout_error E _). }
  destruct (main_fresh E name is_global fs Hv Hst Hl)
    as [(e & _ & Hp)|(fs1 & Ha & _ & [(e & Hp)|[(e & Hp)|[(e & w & _ & Hp)|[(e & d & Hp)|H]]]])];
    try destruct H as (_ & _ & _ & _ & Hp); rewrite Hp; cbn [disk];
    rewrite ?lookup_path_insert_ne by congruence;
    try exact Hq; eapply adds_dirs_keeps; eauto.
Qed.

(** X8.  No run removes or changes what was there: every entry of the
    file system other than the descriptor of the skill is found unchanged
    after the run, whether it succeeded or not. *)
Theorem X8_existing_entries_survive name is_global fs (q : list str) n :
  lookup_path fs q = Some n ->
  q <> resolve E (skill_path E name is_global) ++ [py "SKILL.md"] ->
  lookup_path (disk (main E name is_global fs)) q = Some n.
Proof. apply run_keeps_entries. Qed.

(** X9.  A successful local run prints five lines, the progress line and
    the four closing lines, and shows the skill path as the relative
    [.opencode/skill/<name>], whatever the working directory is. *)
Theorem X9_success_report name fs :
  Spec.Success (main E name false fs) ->
  output (main E name false fs) =
    [ py "Creating skill '" ++ name ++ py "' at .opencode/skill/" ++ name ++ py "...";
      py "Skill '" ++ name ++ py "' created successfully!";
      py "Next steps:";
      py "1. Edit .opencode/skill/" ++ name ++ py "/SKILL.md";
      py "2. Add scripts or references as needed." ].
Proof.
  intros Hs. destruct (main_success E name false fs Hs)
    as (_ & _ & fs1 & _ & _ & _ & _ & _ & ->).
  cbn [output]. unfold Spec.creating_line, success_lines, fspath, skill_path, base_path.
  cbn. rewrite <- ?app_assoc. reflexivity.
Qed.

End Aftermath.

(** ** One skill after another *)

Section Composition.
Context {U : UnicodeData}.
Variable E : environ.

Local Open Scope path_scope.

(** [way_clear] reads the file system on the way only. *)
Lemma way_clear_ext (fs fs' : filesystem) root rp :
  (forall k : list str, k `prefix_of` rev rp ->
     lookup_path fs' (anchor E root ++ k) = lookup_path fs (anchor E root ++ k)) ->
  way_clear E fs' root rp = way_clear E fs root rp.
Proof.
  induction rp as [|x rh IH]; intros H; cbn [way_clear].
  - unfold Os.isdir, Os.stat. specialize (H [] (reflexivity _)).
    rewrite app_nil_r in H. now rewrite H.
  - rewrite IH.
    + unfold entry_ok. now rewrite (H (rev (x :: rh)) (reflexivity _)).
    + intros k Hk. apply H. simpl. now apply prefix_app_r.
Qed.

Lemma other_name_off_the_way (base : list str) (n1 n2 : str) (k : list str) :
  n1 <> n2 -> ~ (base ++ n2 :: k) `prefix_of` (base ++ [n1; py "scripts"])
  /\ ~ (base ++ n2 :: k) `prefix_of` (base ++ [n1; py "references"])
  /\ ~ (base ++ n2 :: k) `prefix_of` (base ++ [n1; py "assets"]).
Proof.
  intros Hne. repeat split; intros Hp; apply prefix_app_inv in Hp;
    destruct Hp as [t Ht]; simpl in Ht; congruence.
Qed.

Lemma other_name_not_on_the_way (base : list str) (n1 n2 : str) (k : list str) :
  n1 <> n2 -> ~ on_the_way (base ++ [n1]) (base ++ n2 :: k).
Proof.
  intros Hne. destruct (other_name_off_the_way base n1 n2 k Hne) as (H1 & H2 & H3).
  unfold on_the_way. rewrite <- !app_assoc. cbn [app]. tauto.
Qed.

(** What a successful run for one name leaves behind does not stand in
    the way of another name. *)
Lemma clear_to_after_other (fs fs1 : filesystem) n1 n2 is_global seg c :
  n1 <> n2 ->
  adds_dirs (on_the_way (resolve E (skill_path E n1 is_global))) fs fs1 ->
  clear_to E fs (skill_path E n2 is_global / seg) = true ->
  clear_to E
    (<[resolve E (skill_path E n1 is_global) ++ [py "SKILL.md"] := File c]> fs1)
    (skill_path E n2 is_global / seg) = true.
Proof.
  intros Hne Ha Hc. unfold clear_to in *.
  rewrite (way_clear_ext fs1); [eapply way_clear_adds; eauto|].
  intros k Hk. apply lookup_path_insert_ne.
  rewrite rev_involutive in Hk. unfold skill_path, truediv, resolve in *.
  cbn [anchored parts] in *. rewrite <- !app_assoc in *. cbn [app] in *.
  intros Heq. apply app_inv_head in Heq. subst k.
  apply prefix_app_inv in Hk. destruct Hk as [t Ht]. simpl in Ht. congruence.
Qed.

Lemma cooperative_after_other (fs fs1 : filesystem) n1 n2 is_global c :
  n1 <> n2 ->
  adds_dirs (on_the_way (resolve E (skill_path E n1 is_global))) fs fs1 ->
  cooperative E fs n2 is_global = true ->
  cooperative E
    (<[resolve E (skill_path E n1 is_global) ++ [py "SKILL.md"] := File c]> fs1)
    n2 is_global = true.
Proof.
  intros Hne Ha Hco. unfold cooperative in *. cbv zeta in *.
  apply andb_true_iff in Hco as [Hco Hh]. apply andb_true_iff in Hco as [Hco Hwr].
  apply andb_true_iff in Hco as [Hco Hw]. apply andb_true_iff in Hco as [Hco C3].
  apply andb_true_iff in Hco as [C1 C2].
  rewrite !(clear_to_after_other fs fs1) by assumption. rewrite Hh, Hwr, !andb_true_r.
  cbn [andb].
  unfold file_ok in *. rewrite resolve_truediv in *.
  rewrite !resolve_skill_path in *.
  rewrite lookup_path_insert_ne.
  - rewrite (adds_dirs_frame _ _ _ _ Ha); [exact Hw|].
    rewrite <- app_assoc. cbn [app]. now apply other_name_not_on_the_way.
  - intros Heq. apply app_inj_tail in Heq as [Heq _].
    apply app_inj_tail in Heq as [_ Heq]. contradiction.
Qed.

(** X11.  Skills do not get in each other's way: on a system that lets
    the script create what is missing, two runs in a row for two different
    valid names in the same scope both succeed, and afterwards both
    descriptors are on disk, each rendered for its own name. *)
Theorem X11_two_skills_in_a_row n1 n2 is_global fs :
  valid_name n1 = true ->
  valid_name n2 = true ->
  n1 <> n2 ->
  lookup_path fs (resolve E (skill_path E n1 is_global)) = None ->
  lookup_path fs (resolve E (skill_path E n2 is_global)) = None ->
  cooperative E fs n1 is_global = true ->
  cooperative E fs n2 is_global = true ->
  let first := main E n1 is_global fs in
  let second := main E n2 is_global (disk first) in
  Spec.Success first
  /\ Spec.Success second
  /\ lookup_path (disk second) (resolve E (skill_path E n1 is_global) ++ [py "SKILL.md"])
     = Some (File (skill_md_content n1))
  /\ lookup_path (disk second) (resolve E (skill_path E n2 is_global) ++ [py "SKILL.md"])
     = Some (File (skill_md_content n2)).
Proof.
  intros Hv1 Hv2 Hne Hno1 Hno2 Hco1 Hco2 first second.
  assert (Hs1 : Spec.Success first) by now apply main_cooperative.
  destruct (main_success E n1 is_global fs Hs1)
    as (_ & _ & fs1 & Ha & _ & _ & _ & _ & Hp).
  assert (Hmd1 : lookup_path (disk first)
                   (resolve E (skill_path E n1 is_global) ++ [py "SKILL.md"])
                 = Some (File (skill_md_content n1))).
  { pose proof (success_writes E n1 is_global fs Hs1) as Hw.
    now rewrite resolve_truediv in Hw. }
  assert (Hno2' : lookup_path (disk first) (resolve E (skill_path E n2 is_global)) = None).
  { subst first. rewrite Hp. cbn [disk]. rewrite !resolve_skill_path in *.
    rewrite lookup_path_insert_ne.
    - rewrite (adds_dirs_frame _ _ _ _ Ha); [exact Hno2|].
      now apply other_name_not_on_the_way.
    - intros Heq. apply (f_equal length) in Heq. rewrite !length_app in Heq.
      simpl in Heq. lia. }
  assert (Hco2' : cooperative E (disk first) n2 is_global = true).
  { subst first. rewrite Hp. cbn [disk]. now apply (cooperative_after_other fs). }
  assert (Hs2 : Spec.Success second) by now apply main_cooperative.
  split; [exact Hs1|]. split; [exact Hs2|]. split.
  - apply run_keeps_entries; [exact Hmd1|].
    rewrite !resolve_skill_path. intros Heq.
    apply app_inj_tail in Heq as [Heq _]. apply app_inj_tail in Heq as [_ Heq].
    contradiction.
  - pose proof (success_writes E n2 is_global (disk first) Hs2) as Hw.
    now rewrite resolve_truediv in Hw.
Qed.
End Composition.

(** ** The title, word by word *)

Section TitleWords.
Context {U : UnicodeData}.

Ltac class_cases :=
  unfold name_char, Ascii7.to_upper, Ascii7.is_alnum, Ascii7.is_cased, Ascii7.is_lower,
    Ascii7.is_upper, Ascii7.is_digit, hyphen, space in *;
  repeat match goal with
    | H : context [N.leb ?a ?b] |- _ => destruct (N.leb_spec a b)
    | |- context [N.leb ?a ?b] => destruct (N.leb_spec a b)
    | H : context [N.eqb ?a ?b] |- _ => destruct (N.eqb_spec a b)
    | |- context [N.eqb ?a ?b] => destruct (N.eqb_spec a b)
    end;
  simpl in *; try discriminate; try reflexivity; try lia.

(** The characters of a word: lowercase letters and digits. *)
Lemma word_char_facts c :
  Ascii7.is_lower c || Ascii7.is_digit c = true ->
  PyUnicode_IsCased c = Ascii7.is_lower c
  /\ PyUnicode_ToTitleFull c = [Ascii7.to_upper c]
  /\ Ascii7.is_cased c = Ascii7.is_lower c
  /\ (Ascii7.is_lower c = false -> Ascii7.to_upper c = c /\ Ascii7.is_digit c = true)
  /\ (Ascii7.is_lower c = true -> Ascii7.is_digit c = false).
Proof.
  intros H.
  assert (Hc : c < 128) by class_cases.
  rewrite iscased_ascii, totitle_ascii by exact Hc.
  repeat split; try (clear Hc; class_cases).
Qed.

Lemma name_char_word c :
  name_char c = true -> (c =? hyphen) = false ->
  Ascii7.is_lower c || Ascii7.is_digit c = true.
Proof. unfold name_char. intros H Hh. rewrite Hh in H. now rewrite orb_false_r in H. Qed.

(** After a digit, a word without letters after digits has digits only. *)
Lemma digits_after_digit r :
  forallb (fun c => Ascii7.is_lower c || Ascii7.is_digit c) r = true ->
  no_letter_after_digit true r = true ->
  Spec.capitalize r = r /\ upper_after_nonletter false r = r.
Proof.
  induction r as [|c r IH]; intros Hw Hn; [now split|].
  simpl in Hw, Hn. apply andb_true_iff in Hw as [Hc Hw].
  apply andb_true_iff in Hn as [Hl Hn]. apply negb_true_iff in Hl.
  destruct (word_char_facts c Hc) as (Hcased & _ & Hcased7 & Hdig & _).
  destruct (Hdig Hl) as [Hup Hd]. rewrite Hd in Hn.
  destruct (IH Hw Hn) as [IH1 IH2].
  cbn [Spec.capitalize upper_after_nonletter].
  rewrite Hcased, Hcased7, Hl, Hup, IH1, IH2. now split.
Qed.

Lemma kept_after_letter r :
  forallb (fun c => Ascii7.is_lower c || Ascii7.is_digit c) r = true ->
  no_letter_after_digit false r = true ->
  upper_after_nonletter true r = r.
Proof.
  induction r as [|c r IH]; intros Hw Hn; [reflexivity|].
  simpl in Hw, Hn. apply andb_true_iff in Hw as [Hc Hw].
  destruct (word_char_facts c Hc) as (_ & _ & Hcased7 & Hdig & Hlow).
  cbn [upper_after_nonletter]. rewrite Hcased7. f_equal.
  destruct (Ascii7.is_lower c) eqn:Hl.
  - rewrite (Hlow eq_refl) in Hn. now apply IH.
  - destruct (Hdig eq_refl) as [_ Hd]. rewrite Hd in Hn.
    now apply digits_after_digit.
Qed.

(** On one word, the first letter uppercased is what [str.title] does. *)
Lemma capitalize_word u :
  forallb (fun c => Ascii7.is_lower c || Ascii7.is_digit c) u = true ->
  no_letter_after_digit false u = true ->
  Spec.capitalize u = upper_after_nonletter false u.
Proof.
  intros Hw Hn. destruct u as [|c r]; [reflexivity|].
  simpl in Hw, Hn. apply andb_true_iff in Hw as [Hc Hw].
  destruct (word_char_facts c Hc) as (Hcased & Htitle & Hcased7 & Hdig & Hlow).
  cbn [Spec.capitalize upper_after_nonletter]. rewrite Hcased, Htitle, Hcased7.
  destruct (Ascii7.is_lower c) eqn:Hl.
  - rewrite (Hlow eq_refl) in Hn. cbn [app]. f_equal. symmetry.
    now apply kept_after_letter.
  - destruct (Hdig eq_refl) as [Hup Hd]. rewrite Hd in Hn. rewrite Hup.
    destruct (digits_after_digit r Hw Hn) as [-> ->]. reflexivity.
Qed.

Lemma upper_after_nonletter_space p u r :
  upper_after_nonletter p (u ++ space :: r)
  = upper_after_nonletter p u ++ space :: upper_after_nonletter false r.
Proof.
  revert p. induction u as [|c u IH]; intros p; cbn [app upper_after_nonletter].
  - now destruct p.
  - now rewrite IH.
Qed.

Lemma no_letter_after_digit_app_l p a b :
  no_letter_after_digit p (a ++ b) = true -> no_letter_after_digit p a = true.
Proof.
  revert p. induction a as [|c a IH]; intros p H; [reflexivity|].
  simpl in *. apply andb_true_iff in H as [H1 H2]. rewrite H1. now apply IH in H2.
Qed.

Lemma no_letter_after_digit_hyphen p a b :
  no_letter_after_digit p (a ++ hyphen :: b) = true ->
  no_letter_after_digit false b = true.
Proof.
  revert p. induction a as [|c a IH]; intros p H; simpl in H.
  - now apply andb_true_iff in H as [_ H].
  - apply andb_true_iff in H as [_ H]. now apply IH in H.
Qed.

Lemma words_from_cons cur s : exists w ws, Spec.words_from cur s = w :: ws.
Proof.
  revert cur. induction s as [|c s IH]; intros cur; simpl; [eauto|].
  destruct (c =? hyphen); eauto.
Qed.

(** The words put together are the text read through. *)
Lemma title_of_words_from s : forall cur,
  forallb (fun c => Ascii7.is_lower c || Ascii7.is_digit c) (rev cur) = true ->
  forallb name_char s = true ->
  no_letter_after_digit false (rev cur ++ s) = true ->
  PyStr.join [space] (map Spec.capitalize (Spec.words_from cur s))
  = upper_after_nonletter false (rev cur ++ PyStr.replace hyphen [space] s).
Proof.
  induction s as [|c s IH]; intros cur Hcur Hs Hn.
  - simpl. rewrite !app_nil_r in *. now apply capitalize_word.
  - simpl in Hs. apply andb_true_iff in Hs as [Hc Hs].
    cbn [Spec.words_from PyStr.replace flat_map].
    destruct (c =? hyphen) eqn:Hh.
    + apply N.eqb_eq in Hh. subst c.
      assert (Hj : PyStr.join [space] (map Spec.capitalize (rev cur :: Spec.words_from [] s))
                   = Spec.capitalize (rev cur) ++ [space]
                     ++ PyStr.join [space] (map Spec.capitalize (Spec.words_from [] s))).
      { destruct (words_from_cons [] s) as (w & ws & ->). reflexivity. }
      rewrite Hj. specialize (IH [] eq_refl Hs). cbn [rev app] in IH.
      rewrite IH by (eapply no_letter_after_digit_hyphen; eauto).
      cbn [app]. rewrite upper_after_nonletter_space. f_equal.
      apply capitalize_word; [exact Hcur|].
      eapply no_letter_after_digit_app_l; eauto.
    + cbn [app]. rewrite (IH (c :: cur)).
      * cbn [rev]. now rewrite <- app_assoc.
      * cbn [rev]. rewrite forallb_app, Hcur. cbn.
        now rewrite (name_char_word c Hc Hh).
      * exact Hs.
      * cbn [rev]. now rewrite <- app_assoc.
Qed.

Lemma valid_ascii_name_chars name :
  valid_name name = true ->
  forallb (fun c => c <? 128) name = true ->
  forallb name_char name = true.
Proof.
  intros Hv Ha. rewrite forallb_forall in Ha. apply forallb_forall. intros c Hc.
  pose proof Hv as Hl. unfold valid_name in Hl. apply andb_true_iff in Hl as [_ Hl].
  apply ascii_class.
  - apply N.ltb_lt, Ha, Hc.
  - now apply (valid_name_chars name).
  - eapply islower_loop_no_upper; eauto.
Qed.

(** X12.  For a valid ASCII name in which no letter directly follows a
    digit (a name without digits, or with digits at the end of its words
    only), the title is what its wording says: the name cut at the
    hyphens, the first letter of each word uppercased, the rest unchanged,
    the words joined by spaces. *)
Theorem X12_title_word_by_word name :
  valid_name name = true ->
  forallb (fun c => c <? 128) name = true ->
  no_letter_after_digit false name = true ->
  PyStr.title (PyStr.replace hyphen [space] name) = Spec.title_of_words name.
Proof.
  intros Hv Ha Hn. rewrite title_of_valid_ascii by assumption.
  unfold Spec.title_of_words. symmetry.
  apply (title_of_words_from name []); [reflexivity| |exact Hn].
  now apply valid_ascii_name_chars.
Qed.
End TitleWords.

(** ** The further properties on the sample systems *)

(** ** The further properties on the sample systems *)


Lemma X2_valid_ascii_names_witness :
  forallb (fun c => c <? 128) (py "pdf-export") = true
  /\ valid_name (U := ascii_data) (py "pdf-export")
     = forallb name_char (py "pdf-export") && existsb Ascii7.is_lower (py "pdf-export").
Proof.
  split; [reflexivity|].
  apply (X2_valid_ascii_names (U := ascii_data)). reflexivity.
Defined.

Lemma X3_valid_name_stays_inside_witness :
  valid_name (U := ascii_data) (py "pdf-export") = true
  /\ ~ In slash (py "pdf-export")
  /\ removelast (resolve sample_env (skill_path sample_env (py "pdf-export") false))
     = resolve sample_env (base_path sample_env false).
Proof.
  assert (Hv : valid_name (U := ascii_data) (py "pdf-export") = true) by reflexivity.
  destruct (X3_valid_name_stays_inside (U := ascii_data) sample_env (py "pdf-export") false Hv)
    as (_ & Hs & _ & _ & Hr).
  split; [exact Hv|]. split; [exact Hs|exact Hr].
Defined.

Lemma X4_file_in_the_way_witness :
  valid_name (U := ascii_data) (py "pdf-export") = true
  /\ lookup_path blocked_fs (resolve sample_env (base_path sample_env false))
     = Some (File (py "notes"))
  /\ lookup_path blocked_fs (resolve sample_env (skill_path sample_env (py "pdf-export") false))
     = None
  /\ output (main (U := ascii_data) sample_env (py "pdf-export") false blocked_fs)
     = [ py "Creating skill 'pdf-export' at .opencode/skill/pdf-export...";
         py "Error creating directories: [Errno 20] Not a directory: '.opencode/skill/pdf-export'" ].
Proof.
  assert (Hv : valid_name (U := ascii_data) (py "pdf-export") = true) by reflexivity.
  assert (Hb : lookup_path blocked_fs (resolve sample_env (base_path sample_env false))
               = Some (File (py "notes"))) by (vm_compute; reflexivity).
  assert (Hn : lookup_path blocked_fs
                 (resolve sample_env (skill_path sample_env (py "pdf-export") false)) = None)
    by (vm_compute; reflexivity).
  split; [exact Hv|]. split; [exact Hb|]. split; [exact Hn|].
  rewrite (X4_file_in_the_way (U := ascii_data) sample_env _ _ _ _ Hv Hb Hn
             eq_refl eq_refl eq_refl eq_refl).
  reflexivity.
Defined.

Lemma X5_partial_layout_stays_witness :
  valid_name (U := ascii_data) (py "pdf-export") = true
  /\ clear_to assets_refusing_env sample_fs
       (truediv (skill_path assets_refusing_env (py "pdf-export") false) (py "scripts")) = true
  /\ denied assets_refusing_env
       (resolve assets_refusing_env (skill_path assets_refusing_env (py "pdf-export") false)
        ++ [py "assets"]) = true
  /\ exit_status (main (U := ascii_data) assets_refusing_env (py "pdf-export") false sample_fs)
     = 1%Z
  /\ lookup_path (disk (main (U := ascii_data) assets_refusing_env (py "pdf-export") false sample_fs))
       [py "tmp"; py "proj"; py ".opencode"; py "skill"; py "pdf-export"; py "references"]
     = Some Dir.
Proof.
  assert (Hv : valid_name (U := ascii_data) (py "pdf-export") = true) by reflexivity.
  assert (Hn : lookup_path sample_fs
                 (resolve assets_refusing_env
                    (skill_path assets_refusing_env (py "pdf-export") false)) = None)
    by (vm_compute; reflexivity).
  assert (C1 : clear_to assets_refusing_env sample_fs
                 (truediv (skill_path assets_refusing_env (py "pdf-export") false)
                    (py "scripts")) = true) by (vm_compute; reflexivity).
  assert (C2 : clear_to assets_refusing_env sample_fs
                 (truediv (skill_path assets_refusing_env (py "pdf-export") false)
                    (py "references")) = true) by (vm_compute; reflexivity).
  assert (Ha : lookup_path sample_fs
                 (resolve assets_refusing_env
                    (skill_path assets_refusing_env (py "pdf-export") false)
                  ++ [py "assets"]) = None) by (vm_compute; reflexivity).
  assert (Hd : denied assets_refusing_env
                 (resolve assets_refusing_env
                    (skill_path assets_refusing_env (py "pdf-export") false)
                  ++ [py "assets"]) = true) by (vm_compute; reflexivity).
  destruct (X5_partial_layout_stays (U := ascii_data) assets_refusing_env _ _ _
              Hv Hn C1 C2 Ha Hd eq_refl eq_refl) as (He & _ & _ & _ & _ & Hr & _).
  split; [exact Hv|]. split; [exact C1|]. split; [exact Hd|].
  split; [exact He|exact Hr].
Defined.



Lemma X8_existing_entries_survive_witness :
  lookup_path sample_fs [py "tmp"; py "proj"] = Some Dir
  /\ lookup_path (disk (main (U := ascii_data) sample_env (py "pdf-export") false sample_fs))
       [py "tmp"; py "proj"] = Some Dir.
Proof.
  assert (Hq : lookup_path sample_fs [py "tmp"; py "proj"] = Some Dir)
    by (vm_compute; reflexivity).
  split; [exact Hq|].
  apply (X8_existing_entries_survive (U := ascii_data) sample_env _ _ _ _ _ Hq).
  discriminate.
Defined.

Lemma X9_success_report_witness :
  Spec.Success (main (U := ascii_data) sample_env (py "pdf-export") false sample_fs)
  /\ output (main (U := ascii_data) sample_env (py "pdf-export") false sample_fs)
     = [ py "Creating skill 'pdf-export' at .opencode/skill/pdf-export...";
         py "Skill 'pdf-export' created successfully!";
         py "Next steps:";
         py "1. Edit .opencode/skill/pdf-export/SKILL.md";
         py "2. Add scripts or references as needed." ].
Proof.
  assert (Hs : Spec.Success
                 (main (U := ascii_data) sample_env (py "pdf-export") false sample_fs))
    by (vm_compute; reflexivity).
  split; [exact Hs|].
  rewrite (X9_success_report (U := ascii_data) sample_env _ _ Hs). reflexivity.
Defined.

Lemma X11_two_skills_in_a_row_witness :
  valid_name (U := ascii_data) (py "pdf-export") = true
  /\ valid_name (U := ascii_data) (py "dup") = true
  /\ py "pdf-export" <> py "dup"
  /\ cooperative sample_env sample_fs (py "pdf-export") false = true
  /\ cooperative sample_env sample_fs (py "dup") false = true
  /\ Spec.Success
       (main (U := ascii_data) sample_env (py "dup") false
          (disk (main (U := ascii_data) sample_env (py "pdf-export") false sample_fs))).
Proof.
  assert (Hv1 : valid_name (U := ascii_data) (py "pdf-export") = true) by reflexivity.
  assert (Hv2 : valid_name (U := ascii_data) (py "dup") = true) by reflexivity.
  assert (Hne : py "pdf-export" <> py "dup") by discriminate.
  assert (Hn1 : lookup_path sample_fs
                  (resolve sample_env (skill_path sample_env (py "pdf-export") false)) = None)
    by (vm_compute; reflexivity).
  assert (Hn2 : lookup_path sample_fs
                  (resolve sample_env (skill_path sample_env (py "dup") false)) = None)
    by (vm_compute; reflexivity).
  assert (Hc1 : cooperative sample_env sample_fs (py "pdf-export") false = true)
    by (vm_compute; reflexivity).
  assert (Hc2 : cooperative sample_env sample_fs (py "dup") false = true)
    by (vm_compute; reflexivity).
  destruct (X11_two_skills_in_a_row (U := ascii_data) sample_env _ _ _ _
              Hv1 Hv2 Hne Hn1 Hn2 Hc1 Hc2) as (_ & Hs2 & _).
  split; [exact Hv1|]. split; [exact Hv2|]. split; [exact Hne|].
  split; [exact Hc1|]. split; [exact Hc2|exact Hs2].
Defined.

Lemma X12_title_word_by_word_witness :
  valid_name (U := ascii_data) (py "top10-list") = true
  /\ forallb (fun c => c <? 128) (py "top10-list") = true
  /\ no_letter_after_digit false (py "top10-list") = true
  /\ PyStr.title (U := ascii_data) (PyStr.replace hyphen [space] (py "top10-list"))
     = Spec.title_of_words (U := ascii_data) (py "top10-list").
Proof.
  split; [reflexivity|]. split; [reflexivity|]. split; [reflexivity|].
  apply (X12_title_word_by_word (U := ascii_data)); reflexivity.
Defined.
